(** * Map Assistant: the tool-dispatch loop of [agent_app.py]

    A shallow embedding of the decision / invocation / explanation
    pipeline of [agent_app.py] and of the command-line loop around it.

    The language-model client, the JSON codec, the bodies of the map-server
    functions and the text of interpreter error messages are not part of the
    program; they are gathered in a [Runtime] record over which every
    definition and theorem is parametric.  The program itself (dictionary
    tests, truthiness, keyword binding, the [try]/[except] clauses, string
    formatting, the read-eval-print loop) is written out. *)

From Stdlib Require Import ZArith String Ascii List Bool SpecFloat.
From stdpp Require Import base option list strings pretty gmap.

Import ListNotations.
Set Warnings "-register-all".
Local Open Scope string_scope.
Local Open Scope Z_scope.

(** ** Python strings

    A Python [str] is modelled by a [string] whose characters are the code
    points below 256. *)

Module PyString.

(** The line feed and the double quote, which have no literal. *)
Definition nl : string := String (ascii_of_nat 10) EmptyString.
Definition dq : string := String (ascii_of_nat 34) EmptyString.

(** [str.isspace] on one character: the code points 9-13, 28-31, 32, 133
    and 160. *)
Definition isspace (c : ascii) : bool :=
  let n := nat_of_ascii c in
  ((9 <=? n) && (n <=? 13) || (28 <=? n) && (n <=? 32)
   || (n =? 133) || (n =? 160))%nat.

Fixpoint lstrip (s : string) : string :=
  match s with
  | String c s' => if isspace c then lstrip s' else s
  | EmptyString => EmptyString
  end.

Definition rstrip (s : string) : string :=
  String.rev (lstrip (String.rev s)).

(** [s.strip()] *)
Definition strip (s : string) : string := rstrip (lstrip s).

(** [str.lower] on one character: A-Z, and the capital letters of the
    Latin-1 supplement (192-222 but 215). *)
Definition lower_char (c : ascii) : ascii :=
  let n := nat_of_ascii c in
  if ((65 <=? n) && (n <=? 90)
      || (192 <=? n) && (n <=? 222) && negb (n =? 215))%nat
  then ascii_of_nat (n + 32) else c.

Fixpoint lower (s : string) : string :=
  match s with
  | String c s' => String (lower_char c) (lower s')
  | EmptyString => EmptyString
  end.

(** [needle in hay] for two strings. *)
Definition contains (needle hay : string) : bool :=
  match index 0 needle hay with Some _ => true | None => false end.

Definition is_empty (s : string) : bool :=
  match s with EmptyString => true | _ => false end.

End PyString.

(** ** Python values

    The values [json.loads] can produce, which are also the values the tools
    take and return.  A dictionary is the list of its items in insertion
    order; its keys are distinct, which no property below relies on. *)

Inductive pyval : Type :=
| PyNone
| PyBool (b : bool)
| PyInt (n : Z)
| PyFloat (x : spec_float)
| PyStr (s : string)
| PyList (l : list pyval)
| PyDict (d : list (string * pyval)).

Module Py.

(** [d.get(k)] on the items of a dictionary. *)
Fixpoint lookup (k : string) (d : list (string * pyval)) : option pyval :=
  match d with
  | [] => None
  | (k', v) :: d' => if String.eqb k k' then Some v else lookup k d'
  end.

Definition has_key (k : string) (d : list (string * pyval)) : bool :=
  match lookup k d with Some _ => true | None => false end.

(** [v == s] for a string [s]: only a string equals a string. *)
Definition eq_str (s : string) (v : pyval) : bool :=
  match v with PyStr t => String.eqb s t | _ => false end.

(** [bool(v)] *)
Definition truthy (v : pyval) : bool :=
  match v with
  | PyNone => false
  | PyBool b => b
  | PyInt n => negb (n =? 0)
  | PyFloat (S754_zero _) => false
  | PyFloat _ => true
  | PyStr s => negb (PyString.is_empty s)
  | PyList l => match l with [] => false | _ => true end
  | PyDict d => match d with [] => false | _ => true end
  end.

(** [a or b] *)
Definition or_else (a b : pyval) : pyval := if truthy a then a else b.

(** Lists and dictionaries have no hash. *)
Definition hashable (v : pyval) : bool :=
  match v with PyList _ | PyDict _ => false | _ => true end.

Definition is_dict (v : pyval) : bool :=
  match v with PyDict _ => true | _ => false end.

End Py.

(** ** Exceptions *)

Inductive exn_class : Type :=
| JSONDecodeError
| TypeError
| AttributeError
| KeyError
| RuntimeError
| EOFError
| KeyboardInterrupt
| SystemExit
| OtherException (name : string).

Record exn : Type := mkExn { exn_kind : exn_class; exn_text : string }.

(** [except Exception] catches all but the exceptions that derive from
    [BaseException] only. *)
Definition is_Exception (c : exn_class) : bool :=
  match c with KeyboardInterrupt | SystemExit => false | _ => true end.

Definition is_TypeError (c : exn_class) : bool :=
  match c with TypeError => true | _ => false end.

Definition is_JSONDecodeError (c : exn_class) : bool :=
  match c with JSONDecodeError => true | _ => false end.

(** What the interpreter itself can object to in this program. *)
Inductive fault : Type :=
| NotIterable (v : pyval)                       (* [k in v] *)
| NoAttribute (v : pyval) (attr : string)       (* [v.attr] *)
| BadSubscript (v : pyval) (k : string)         (* [v[k]] *)
| NoSuchKey (k : string)                        (* [d[k]] *)
| Unhashable (v : pyval)                        (* [v in d] *)
| NotAMapping (fn : string) (v : pyval)         (* [fn( **v )] *)
| UnexpectedKeyword (fn : string) (k : string)
| MissingRequired (fn : string) (names : list string).

Definition fault_class (f : fault) : exn_class :=
  match f with
  | NoAttribute _ _ => AttributeError
  | NoSuchKey _ => KeyError
  | _ => TypeError
  end.

Inductive outcome (A : Type) : Type :=
| Return (a : A)
| Raise (e : exn).
Arguments Return {A} a.
Arguments Raise {A} e.

(** ** What the program runs against *)

Record message : Type := mkMessage { role : string; content : string }.

Record Runtime : Type := mkRuntime {
  (** the state of the outside world: model provider and map services *)
  env_state : Type;
  (** [client.chat.completions.create(model, messages, max_tokens)] followed
      by [.choices[0].message.content] *)
  chat_completion :
    string -> list message -> Z -> env_state -> outcome string * env_state;
  (** [json.loads] *)
  json_loads : string -> outcome pyval;
  (** [json.dumps(v, indent=2)] *)
  json_dumps_indent2 : pyval -> string;
  (** [repr(v)] *)
  repr : pyval -> string;
  (** the message of an exception raised by the interpreter *)
  fault_text : fault -> string;
  (** the body of a map-server function, run on its bound parameters *)
  tool_body :
    string -> list (string * pyval) -> env_state -> outcome pyval * env_state;
}.

(** ** Observable calls, the world, and the monad of the program *)

Inductive event : Type :=
| EvChat (messages : list message) (max_tokens : Z)
    (* a request to the language model *)
| EvCall (fn : string) (kwargs : list (string * pyval))
    (* [fn( **kwargs )] is entered: parameters are about to be bound *)
| EvBody (fn : string) (bound : list (string * pyval)).
    (* binding succeeded: the body of [fn], from which every request to a
       map service is made, starts to run *)

Record World (R : Runtime) : Type := mkWorld {
  env : env_state R;
  log : list event;          (* oldest first *)
  stdout : list string;      (* the pieces written, oldest first *)
}.
Arguments mkWorld {R} env log stdout.
Arguments env {R} w.
Arguments log {R} w.
Arguments stdout {R} w.

Definition M (R : Runtime) (A : Type) : Type :=
  World R -> outcome A * World R.

Definition ret {R A} (a : A) : M R A := fun w => (Return a, w).

Definition bind {R A B} (m : M R A) (k : A -> M R B) : M R B :=
  fun w =>
    match m w with
    | (Return a, w') => k a w'
    | (Raise e, w') => (Raise e, w')
    end.

Definition raise {R A} (e : exn) : M R A := fun w => (Raise e, w).

(** The interpreter raises the exception of a fault. *)
Definition throw {R A} (f : fault) : M R A :=
  raise (mkExn (fault_class f) (fault_text R f)).

Definition emit {R} (e : event) : M R unit :=
  fun w => (Return tt, mkWorld (env w) (log w ++ [e]) (stdout w)).

Definition write {R} (s : string) : M R unit :=
  fun w => (Return tt, mkWorld (env w) (log w) (stdout w ++ [s])).

(** [print(s)] *)
Definition print {R} (s : string) : M R unit := write (s +:+ PyString.nl).

(** A computation of the runtime that has no effect. *)
Definition pure {R A} (o : outcome A) : M R A := fun w => (o, w).

(** An effect of the outside world on its own state. *)
Definition outside {R A}
    (f : env_state R -> outcome A * env_state R) : M R A :=
  fun w => let (r, s) := f (env w) in (r, mkWorld s (log w) (stdout w)).

(** [try: body  except ...: handler]: the handler of an exception is the
    first clause that matches it, [None] when no clause does. *)
Definition try_except {R A}
    (body : M R A) (handler : exn -> option (M R A)) : M R A :=
  fun w =>
    match body w with
    | (Return a, w') => (Return a, w')
    | (Raise e, w') =>
        match handler e with
        | Some h => h w'
        | None => (Raise e, w')
        end
    end.

Declare Scope py_scope.
Delimit Scope py_scope with py.
Notation "x <- m ;; k" := (bind m (fun x => k))
  (at level 100, m at next level, right associativity) : py_scope.
Notation "m ;; k" := (bind m (fun _ => k))
  (at level 100, right associativity) : py_scope.

(** ** The map-server functions and the tool registry *)

Record param : Type := mkParam {
  param_name : string;
  param_default : option pyval;     (* [None]: the parameter is required *)
}.

Record pyfun : Type := mkFun { fun_name : string; fun_params : list param }.

Definition required (p : string) : param := mkParam p None.
Definition optional (p : string) (v : pyval) : param := mkParam p (Some v).

Module MapServers.

(** [map_servers/osrm_server.py] *)
Definition osrm_route_driving_impl : pyfun :=
  mkFun "osrm_route_driving_impl"
    [required "start_lat"; required "start_lon";
     required "end_lat"; required "end_lon"].

Definition osrm_route_cycling_impl : pyfun :=
  mkFun "osrm_route_cycling_impl"
    [required "start_lat"; required "start_lon";
     required "end_lat"; required "end_lon"].

Definition osrm_nearest_road_impl : pyfun :=
  mkFun "osrm_nearest_road_impl"
    [required "lat"; required "lon";
     optional "profile" (PyStr "driving")].

(** Modelled from the spec: [map_servers/osm_server.py] is not among the
    sources.  The parameters of its three functions are those of the tool
    catalog in [_tool_schema] (names, required or optional, defaults), in
    the order of the calls in [tests/test_osm_server.py].  No property below
    depends on them: the registry is looked up, never taken apart. *)
Definition osm_geocode_impl : pyfun :=
  mkFun "osm_geocode_impl"
    [required "query"; optional "limit" (PyInt 5)].

(** Modelled from the spec: [osm_reverse_geocode_impl] of the missing
    [map_servers/osm_server.py], from its entry in [_tool_schema]. *)
Definition osm_reverse_geocode_impl : pyfun :=
  mkFun "osm_reverse_geocode_impl"
    [required "lat"; required "lon"; optional "zoom" (PyInt 18)].

(** Modelled from the spec: [osm_search_poi_impl] of the missing
    [map_servers/osm_server.py], from its entry in [_tool_schema]. *)
Definition osm_search_poi_impl : pyfun :=
  mkFun "osm_search_poi_impl"
    [required "lat"; required "lon";
     optional "radius_m" (PyInt 500);
     optional "key" (PyStr "amenity");
     optional "value" (PyStr "restaurant");
     optional "limit" (PyInt 20)].

End MapServers.

Definition MODEL_ID : string := "meta-llama/Meta-Llama-3-8B-Instruct".

Record tool_spec : Type := mkToolSpec {
  description : string;
  args : list (string * string);
}.

Definition _tool_schema : list (string * tool_spec) :=
  [ ("osm_geocode",
     mkToolSpec
       "Forward geocode a free-text place or address using OpenStreetMap Nominatim."
       [("query", "string (required) - address or place name, e.g. 'Berlin, Germany'.");
        ("limit", "integer (optional, default=5) - max number of results (1-10).")]);
    ("osm_reverse_geocode",
     mkToolSpec
       "Reverse geocode coordinates to an address using OpenStreetMap Nominatim."
       [("lat", "float (required) - latitude in decimal degrees.");
        ("lon", "float (required) - longitude in decimal degrees.");
        ("zoom", "integer (optional, default=18) - detail level (3-18).")]);
    ("osm_search_poi",
     mkToolSpec
       "Search points-of-interest (POI) around a coordinate using Overpass API."
       [("lat", "float (required) - center latitude.");
        ("lon", "float (required) - center longitude.");
        ("radius_m", "integer (optional, default=500) - radius in meters (50-5000).");
        ("key", "string (optional, default='amenity') - OSM tag key.");
        ("value", "string (optional, default='restaurant') - OSM tag value.");
        ("limit", "integer (optional, default=20) - max results (1-50).")]);
    ("osrm_route_driving",
     mkToolSpec
       "Get a driving route between two coordinates using OSRM."
       [("start_lat", "float (required)"); ("start_lon", "float (required)");
        ("end_lat", "float (required)"); ("end_lon", "float (required)")]);
    ("osrm_route_cycling",
     mkToolSpec
       "Get a cycling route between two coordinates using OSRM."
       [("start_lat", "float (required)"); ("start_lon", "float (required)");
        ("end_lat", "float (required)"); ("end_lon", "float (required)")]);
    ("osrm_nearest_road",
     mkToolSpec
       "Snap a coordinate to the nearest road using OSRM."
       [("lat", "float (required)"); ("lon", "float (required)");
        ("profile", "string (optional, default='driving') - OSRM profile (driving, bike, foot).")])
  ].

Definition TOOL_FUNCTIONS : gmap string pyfun :=
  list_to_map
    [ ("osm_geocode", MapServers.osm_geocode_impl);
      ("osm_reverse_geocode", MapServers.osm_reverse_geocode_impl);
      ("osm_search_poi", MapServers.osm_search_poi_impl);
      ("osrm_route_driving", MapServers.osrm_route_driving_impl);
      ("osrm_route_cycling", MapServers.osrm_route_cycling_impl);
      ("osrm_nearest_road", MapServers.osrm_nearest_road_impl) ].

(** ** Calling a function with [**kwargs] *)

Module Call.

Definition is_param (f : pyfun) (k : string) : bool :=
  existsb (fun p => String.eqb k (param_name p)) (fun_params f).

(** The first keyword, in the order of the dictionary, that names no
    parameter. *)
Definition unexpected (f : pyfun) (kwargs : list (string * pyval))
  : option string :=
  fst <$> List.find (fun kv => negb (is_param f (fst kv))) kwargs.

(** The required parameters that got no value, in the order of the
    signature. *)
Definition missing (f : pyfun) (kwargs : list (string * pyval))
  : list string :=
  param_name <$>
    List.filter
      (fun p => match param_default p with
                | None => negb (Py.has_key (param_name p) kwargs)
                | Some _ => false
                end)
      (fun_params f).

Definition bound_value (kwargs : list (string * pyval)) (p : param)
  : string * pyval :=
  (param_name p,
   match Py.lookup (param_name p) kwargs with
   | Some v => v
   | None => default PyNone (param_default p)
   end).

(** Binding the keywords to the parameters: the fault, or the value of
    every parameter. *)
Definition bind_kwargs (f : pyfun) (kwargs : list (string * pyval))
  : fault + list (string * pyval) :=
  match unexpected f kwargs with
  | Some k => inl (UnexpectedKeyword (fun_name f) k)
  | None =>
      match missing f kwargs with
      | [] => inr (bound_value kwargs <$> fun_params f)
      | names => inl (MissingRequired (fun_name f) names)
      end
  end.

End Call.

(** ** The agent *)

Section Agent.

Context (R : Runtime).

Local Open Scope py_scope.
Local Abbreviation M := (M R).

Import PyString.

(** [str(v)], as an f-string formats a value. *)
Definition str (v : pyval) : string :=
  match v with PyStr s => s | _ => repr R v end.

(** [k in v] *)
Definition py_in (k : string) (v : pyval) : M bool :=
  match v with
  | PyDict d => ret (Py.has_key k d)
  | PyList l => ret (existsb (Py.eq_str k) l)
  | PyStr s => ret (contains k s)
  | _ => throw (NotIterable v)
  end.

(** [v[k]] *)
Definition py_getitem (v : pyval) (k : string) : M pyval :=
  match v with
  | PyDict d =>
      match Py.lookup k d with
      | Some x => ret x
      | None => throw (NoSuchKey k)
      end
  | _ => throw (BadSubscript v k)
  end.

(** [v.get(k, dflt)] *)
Definition py_get (v : pyval) (k : string) (dflt : pyval) : M pyval :=
  match v with
  | PyDict d => ret (default dflt (Py.lookup k d))
  | _ => throw (NoAttribute v "get")
  end.

(** [v in TOOL_FUNCTIONS], with the function found. *)
Definition find_tool (v : pyval) : M (option (string * pyfun)) :=
  if Py.hashable v then
    match v with
    | PyStr s => ret (pair s <$> (TOOL_FUNCTIONS !! s))
    | _ => ret None
    end
  else throw (Unhashable v).

(** [f( **kwargs )] *)
Definition call_kwargs (f : pyfun) (kwargs : pyval) : M pyval :=
  match kwargs with
  | PyDict kw =>
      emit (EvCall (fun_name f) kw) ;;
      match Call.bind_kwargs f kw with
      | inl flt => throw flt
      | inr bound =>
          emit (EvBody (fun_name f) bound) ;;
          outside (tool_body R (fun_name f) bound)
      end
  | _ => throw (NotAMapping (fun_name f) kwargs)
  end.

Definition _hf_chat (messages : list message) (max_tokens : Z) : M string :=
  emit (EvChat messages max_tokens) ;;
  outside (chat_completion R MODEL_ID messages max_tokens).

Definition args_dict (a : list (string * string)) : pyval :=
  PyDict (prod_map id PyStr <$> a).

Definition build_system_prompt : string :=
  let tools_text_parts :=
    (fun '(name, spec) =>
       "- " +:+ name +:+ ":" +:+ nl +:+
       "  description: " +:+ description spec +:+ nl +:+
       "  args: " +:+ json_dumps_indent2 R (args_dict (args spec)))
      <$> _tool_schema in
  let tools_text := String.concat nl tools_text_parts in
  "You are a geospatial assistant that can call a set of tools (map servers)." +:+ nl +:+
  "Tools available:" +:+ nl +:+
  tools_text +:+ nl +:+ nl +:+
  "You MUST decide if you need to call a tool." +:+ nl +:+
  "If you need a tool, respond ONLY with a JSON object of the form:" +:+ nl +:+
  "{" +:+ nl +:+
  "  " +:+ dq +:+ "tool" +:+ dq +:+ ": " +:+ dq +:+ "<tool_name>" +:+ dq +:+ "," +:+ nl +:+
  "  " +:+ dq +:+ "args" +:+ dq +:+ ": { ... }" +:+ nl +:+
  "}" +:+ nl +:+
  "where <tool_name> is one of the tools above, and args contains only simple JSON types." +:+ nl +:+
  "If you can answer directly without tools (e.g., conceptual explanation), respond ONLY with:" +:+ nl +:+
  "{ " +:+ dq +:+ "answer" +:+ dq +:+ ": " +:+ dq +:+ "<your natural language answer>" +:+ dq +:+ " }" +:+ nl +:+
  "Do not add any extra text outside the JSON. The JSON must be the entire response.".

Definition decision_messages (user_message : string) : list message :=
  [ mkMessage "system" build_system_prompt;
    mkMessage "user" user_message ].

Definition ask_llm_for_tool_or_answer (user_message : string) : M pyval :=
  let messages := decision_messages user_message in
  reply <- _hf_chat messages 512 ;;
  let text := strip reply in
  try_except
    (pure (json_loads R text))
    (fun e =>
       if is_JSONDecodeError (exn_kind e)
       then Some (ret (PyDict [("answer", PyStr text)]))
       else None).

(** [_tool_schema().get(tool_name, {})] *)
Fixpoint schema_get (tool_name : string) (schema : list (string * tool_spec))
  : option tool_spec :=
  match schema with
  | [] => None
  | (name, spec) :: rest =>
      if String.eqb tool_name name then Some spec
      else schema_get tool_name rest
  end.

Definition explain_prompt
    (user_message tool_name : string) (args result : pyval) : string :=
  let tool_desc :=
    match schema_get tool_name _tool_schema with
    | Some spec => description spec
    | None => ""
    end in
  "You are a geospatial assistant. A tool has been called on behalf of the user." +:+ nl +:+ nl +:+
  "User message:" +:+ nl +:+ user_message +:+ nl +:+ nl +:+
  "Tool used: " +:+ tool_name +:+ nl +:+
  "Tool description: " +:+ tool_desc +:+ nl +:+
  "Arguments: " +:+ json_dumps_indent2 R args +:+ nl +:+ nl +:+
  "Raw tool result (JSON):" +:+ nl +:+ json_dumps_indent2 R result +:+ nl +:+ nl +:+
  "Now explain the result to the user in clear natural language. " +:+
  "Summarize key distances, durations, coordinates, and any useful POI details. " +:+
  "Do not show the raw JSON, just a human-readable explanation.".

Definition explain_messages
    (user_message tool_name : string) (args result : pyval)
  : list message :=
  [ mkMessage "system" "You are a helpful geospatial assistant.";
    mkMessage "user" (explain_prompt user_message tool_name args result) ].

Definition ask_llm_to_explain_result
    (user_message tool_name : string) (args result : pyval) : M string :=
  let messages := explain_messages user_message tool_name args result in
  reply <- _hf_chat messages 512 ;;
  ret (strip reply).

Definition unknown_tool_text (tool_name : pyval) : string :=
  "I tried to call an unknown tool '" +:+ str tool_name +:+
  "'. Please refine your request.".

Definition call_error_text (tool_name : string) (args : pyval) (e : exn)
  : string :=
  "There was an error calling tool '" +:+ tool_name +:+
  "' with arguments " +:+ str args +:+ ": " +:+ exn_text e.

Definition tool_failed_text (tool_name : string) (e : exn) : string :=
  "Tool '" +:+ tool_name +:+ "' failed with an exception: " +:+ exn_text e.

(** The [try] statement around the tool call: the result of the tool, or
    the text that a handler returns from [handle_user_message]. *)
Definition try_tool (tool_name : string) (tool_fn : pyfun) (args : pyval)
  : M (pyval + string) :=
  try_except
    (result <- call_kwargs tool_fn args ;; ret (inl result))
    (fun e =>
       if is_TypeError (exn_kind e)
       then Some (ret (inr (call_error_text tool_name args e)))
       else if is_Exception (exn_kind e)
       then Some (ret (inr (tool_failed_text tool_name e)))
       else None).

Definition handle_user_message (user_message : string) : M pyval :=
  decision <- ask_llm_for_tool_or_answer user_message ;;
  has_answer <- py_in "answer" decision ;;
  direct <- (if has_answer
             then has_tool <- py_in "tool" decision ;; ret (negb has_tool)
             else ret false) ;;
  if direct then py_getitem decision "answer"
  else
    tool_name <- py_get decision "tool" PyNone ;;
    args0 <- py_get decision "args" (PyDict []) ;;
    let args := Py.or_else args0 (PyDict []) in
    found <- find_tool tool_name ;;
    match found with
    | None => ret (PyStr (unknown_tool_text tool_name))
    | Some (name, tool_fn) =>
        r <- try_tool name tool_fn args ;;
        match r with
        | inr text => ret (PyStr text)
        | inl result =>
            text <- ask_llm_to_explain_result user_message name args result ;;
            ret (PyStr text)
        end
    end.

(** What the user does at one prompt; the end of the list is the end of
    the input. *)
Inductive keyboard : Type :=
| Line (s : string)
| CtrlC.

Definition is_quit (user_input : string) : bool :=
  let l := lower user_input in
  String.eqb l "quit" || String.eqb l "exit".

(** The [while True] loop of [main]: every iteration reads one line. *)
Fixpoint repl (keys : list keyboard) : M unit :=
  match keys with
  | [] => write "You: " ;; print (nl +:+ "Exiting.")
  | CtrlC :: _ => write "You: " ;; print (nl +:+ "Exiting.")
  | Line l :: keys' =>
      write "You: " ;;
      let user_input := strip l in
      if is_quit user_input then print "Goodbye."
      else if is_empty user_input then repl keys'
      else
        answer <- handle_user_message user_input ;;
        print (nl +:+ "Assistant:" +:+ nl) ;;
        print (str answer) ;;
        print (nl +:+ "---" +:+ nl) ;;
        repl keys'
  end.

Definition main (keys : list keyboard) : M unit :=
  print ("Map Assistant (Hugging Face model: " +:+ MODEL_ID +:+ ")") ;;
  print ("Type 'quit' or 'exit' to stop." +:+ nl) ;;
  repl keys.

End Agent.

(** ** Observing a turn *)

Section Observing.

Context {R : Runtime}.

Local Open Scope py_scope.

(** The world [w] once the outside has moved to state [s] and [events] have
    been logged. *)
Definition after (w : World R) (s : env_state R) (events : list event)
  : World R :=
  mkWorld s (log w ++ events) (stdout w).

Definition is_tool_event (e : event) : bool :=
  match e with EvChat _ _ => false | _ => true end.

(** The calls of tools, and the number of requests to the model, among some
    events. *)
Definition tool_events (events : list event) : list event :=
  List.filter is_tool_event events.

Definition model_calls (events : list event) : nat :=
  length (List.filter (fun e => negb (is_tool_event e)) events).

(** What a run that started in [w] has added to the log. *)
Definition new_events (w w' : World R) : list event :=
  drop (length (log w)) (log w').

(** The class of a turn: the tool calls it made; whether it went on to the
    explanation stage; and, when it did not, what it returned or raised
    (the answer, or the text of the error). *)
Record turn_class : Type := mkClass {
  invoked : list event;
  explained : bool;
  final : option (outcome pyval);
}.

Definition outcome_class (w : World R) (run : outcome pyval * World R)
  : turn_class :=
  let events := new_events w (snd run) in
  let explained := (2 <=? model_calls events)%nat in
  mkClass (tool_events events) explained
          (if explained then None else Some (fst run)).

(** The tool path of [handle_user_message], from the lookup of the tool on. *)
Definition tool_path (user_message : string) (tool_name args : pyval)
  : M R pyval :=
  found <- find_tool R tool_name ;;
  match found with
  | None => ret (PyStr (unknown_tool_text R tool_name))
  | Some (name, tool_fn) =>
      r <- try_tool R name tool_fn args ;;
      match r with
      | inr text => ret (PyStr text)
      | inl result =>
          text <- ask_llm_to_explain_result R user_message name args result ;;
          ret (PyStr text)
      end
  end.

(** [handle_user_message] once the decision is known. *)
Definition dispatch (user_message : string) (decision : pyval) : M R pyval :=
  has_answer <- py_in R "answer" decision ;;
  direct <- (if has_answer
             then has_tool <- py_in R "tool" decision ;; ret (negb has_tool)
             else ret false) ;;
  if direct then py_getitem R decision "answer"
  else
    tool_name <- py_get R decision "tool" PyNone ;;
    args0 <- py_get R decision "args" (PyDict []) ;;
    tool_path user_message tool_name (Py.or_else args0 (PyDict [])).

(** The decision stage of a turn that starts in [w] gets the reply [raw]
    from the model, and the outside moves to state [s]. *)
Definition model_replies (w : World R) (user_message raw : string)
    (s : env_state R) : Prop :=
  chat_completion R MODEL_ID (decision_messages R user_message) 512 (env w)
  = (Return raw, s).

(** The keywords [A] do not fit the parameters of [f]: a keyword names no
    parameter, or a required parameter has no keyword. *)
Definition fails_to_bind (f : pyfun) (A : list (string * pyval)) : Prop :=
  (exists k v, In (k, v) A /\ Call.is_param f k = false)
  \/ (exists p, In p (fun_params f) /\ param_default p = None
                /\ Py.has_key (param_name p) A = false).

(** The value of an outcome, changed by [f]. *)
Definition outcome_map {A B} (f : A -> B) (o : outcome A) : outcome B :=
  match o with Return a => Return (f a) | Raise e => Raise e end.

(** What the [except] clauses around the tool call make of an exception. *)
Definition tool_error (tool_name : string) (args : pyval) (e : exn)
  : outcome pyval :=
  if is_TypeError (exn_kind e)
  then Return (PyStr (call_error_text R tool_name args e))
  else if is_Exception (exn_kind e)
  then Return (PyStr (tool_failed_text tool_name e))
  else Raise e.

(** The turn from the moment the keywords [A] are bound to the parameters of
    [f]: the body runs, and its result is explained or its exception
    handled. *)
Definition run_tool (user_message T : string) (f : pyfun)
    (A bound : list (string * pyval)) : M R pyval :=
  fun w =>
    let w' s := after w s [EvCall (fun_name f) A; EvBody (fun_name f) bound] in
    match tool_body R (fun_name f) bound (env w) with
    | (Return result, s) =>
        let x := ask_llm_to_explain_result R user_message T (PyDict A) result
                   (w' s) in
        (outcome_map PyStr (fst x), snd x)
    | (Raise e, s) => (tool_error T (PyDict A) e, w' s)
    end.

(** The language model fails in the turn that starts in [w], with the
    exception [e], leaving the world [w']: in the decision stage, or in the
    explanation stage that follows a successful tool call. *)
Inductive model_failure (w : World R) (user_message : string) (e : exn)
  : World R -> Prop :=
| decision_stage_fails s :
    chat_completion R MODEL_ID (decision_messages R user_message) 512 (env w)
    = (Raise e, s) ->
    model_failure w user_message e
      (after w s [EvChat (decision_messages R user_message) 512])
| explanation_stage_fails raw s d T A f bound result s' s'' :
    model_replies w user_message raw s ->
    json_loads R (PyString.strip raw) = Return (PyDict d) ->
    Py.lookup "tool" d = Some (PyStr T) ->
    Py.lookup "args" d = Some (PyDict A) ->
    TOOL_FUNCTIONS !! T = Some f ->
    Call.bind_kwargs f A = inr bound ->
    tool_body R (fun_name f) bound s = (Return result, s') ->
    chat_completion R MODEL_ID
      (explain_messages R user_message T (PyDict A) result) 512 s'
    = (Raise e, s'') ->
    model_failure w user_message e
      (after w s''
         [EvChat (decision_messages R user_message) 512;
          EvCall (fun_name f) A;
          EvBody (fun_name f) bound;
          EvChat (explain_messages R user_message T (PyDict A) result) 512]).

(** What the decision stage makes of the reply [raw] of the model. *)
Definition decision_of (raw : string) : outcome pyval :=
  let text := PyString.strip raw in
  match json_loads R text with
  | Return data => Return data
  | Raise e =>
      if is_JSONDecodeError (exn_kind e)
      then Return (PyDict [("answer", PyStr text)])
      else Raise e
  end.

(** The world once the prompt of [input] has been written. *)
Definition prompted (w : World R) : World R :=
  mkWorld (env w) (log w) (stdout w ++ ["You: "]).

(** The number of prompts written. *)
Definition prompts (w : World R) : nat :=
  length (List.filter (String.eqb "You: ") (stdout w)).

End Observing.

Arguments decision_of R raw : clear implicits.
Arguments tool_error R tool_name args e : clear implicits.

(** ** A runtime to run the agent on

    The model answers from a script, one reply per request; the tools are
    given as a function and count the requests they make to a map service.
    [loads] is the table of [json.loads] on the texts of the examples, and
    the codec prints the values of the examples (strings without quotes or
    escapes, integers, lists, dictionaries; a float is left unprinted). *)

Module Sample.

Import PyString.

Definition q (s : string) : string := dq +:+ s +:+ dq.

Definition geocode_text : string :=
  "{" +:+ q "tool" +:+ ":" +:+ q "osm_geocode" +:+ "," +:+ q "args" +:+
  ":{" +:+ q "query" +:+ ":" +:+ q "Eiffel Tower" +:+ "," +:+
  q "limit" +:+ ":3}}".
Definition geocode_args : list (string * pyval) :=
  [("query", PyStr "Eiffel Tower"); ("limit", PyInt 3)].

Definition answer_text : string :=
  "{" +:+ q "answer" +:+ ": " +:+ q "OSRM is a routing engine." +:+ "}".

Definition teleport_text : string :=
  "{" +:+ q "tool" +:+ ": " +:+ q "osm_teleport" +:+ ", " +:+
  q "args" +:+ ": {}}".

Definition both_text (answer : string) : string :=
  "{" +:+ q "answer" +:+ ": " +:+ q answer +:+ ", " +:+
  q "tool" +:+ ": " +:+ q "osrm_nearest_road" +:+ ", " +:+
  q "args" +:+ ": {" +:+ q "lat" +:+ ": 48, " +:+ q "lon" +:+ ": 2}}".

Definition array_text : string := "[1, 2]".

Definition route_args : list (string * pyval) :=
  [("start_lat", PyInt 52); ("start_lon", PyInt 13);
   ("end_lat", PyInt 53); ("end_lon", PyInt 14)].
Definition route_text : string :=
  "{" +:+ q "tool" +:+ ": " +:+ q "osrm_route_driving" +:+ ", " +:+
  q "args" +:+ ": {" +:+ q "start_lat" +:+ ": 52, " +:+
  q "start_lon" +:+ ": 13, " +:+ q "end_lat" +:+ ": 53, " +:+
  q "end_lon" +:+ ": 14}}".

Definition nearest_args : list (string * pyval) :=
  [("lat", PyInt 48); ("lon", PyInt 2)].
Definition nearest_text : string :=
  "{" +:+ q "tool" +:+ ": " +:+ q "osrm_nearest_road" +:+ ", " +:+
  q "args" +:+ ": {" +:+ q "lat" +:+ ": 48, " +:+ q "lon" +:+ ": 2}}".

Definition short_route_args : list (string * pyval) :=
  [("start_lat", PyInt 52); ("start_lon", PyInt 13)].
Definition short_route_text : string :=
  "{" +:+ q "tool" +:+ ": " +:+ q "osrm_route_driving" +:+ ", " +:+
  q "args" +:+ ": {" +:+ q "start_lat" +:+ ": 52, " +:+
  q "start_lon" +:+ ": 13}}".

Definition json_table : list (string * pyval) :=
  [ (geocode_text,
     PyDict [("tool", PyStr "osm_geocode"); ("args", PyDict geocode_args)]);
    (answer_text, PyDict [("answer", PyStr "OSRM is a routing engine.")]);
    (teleport_text,
     PyDict [("tool", PyStr "osm_teleport"); ("args", PyDict [])]);
    (both_text "Let me look.",
     PyDict [("answer", PyStr "Let me look.");
             ("tool", PyStr "osrm_nearest_road");
             ("args", PyDict nearest_args)]);
    (both_text "One moment.",
     PyDict [("answer", PyStr "One moment.");
             ("tool", PyStr "osrm_nearest_road");
             ("args", PyDict nearest_args)]);
    (array_text, PyList [PyInt 1; PyInt 2]);
    (route_text,
     PyDict [("tool", PyStr "osrm_route_driving");
             ("args", PyDict route_args)]);
    (nearest_text,
     PyDict [("tool", PyStr "osrm_nearest_road");
             ("args", PyDict nearest_args)]);
    (short_route_text,
     PyDict [("tool", PyStr "osrm_route_driving");
             ("args", PyDict short_route_args)]) ].

Definition loads (text : string) : outcome pyval :=
  match Py.lookup text json_table with
  | Some v => Return v
  | None => Raise (mkExn JSONDecodeError "Expecting value")
  end.

Fixpoint py_repr (v : pyval) : string :=
  match v with
  | PyNone => "None"
  | PyBool true => "True"
  | PyBool false => "False"
  | PyInt n => pretty n
  | PyFloat _ => "<float>"
  | PyStr s => "'" +:+ s +:+ "'"
  | PyList l => "[" +:+ String.concat ", " (List.map py_repr l) +:+ "]"
  | PyDict d =>
      "{" +:+
      String.concat ", "
        ((fix items (d : list (string * pyval)) : list string :=
            match d with
            | [] => []
            | (k, x) :: d' => ("'" +:+ k +:+ "': " +:+ py_repr x) :: items d'
            end) d) +:+
      "}"
  end.

Definition pad (depth : nat) : string :=
  String.concat "" (repeat "  " depth).

Fixpoint dumps (depth : nat) (v : pyval) : string :=
  match v with
  | PyNone => "null"
  | PyBool true => "true"
  | PyBool false => "false"
  | PyInt n => pretty n
  | PyFloat _ => "<float>"
  | PyStr s => q s
  | PyList [] => "[]"
  | PyList l =>
      "[" +:+ nl +:+ pad (S depth) +:+
      String.concat ("," +:+ nl +:+ pad (S depth))
        (List.map (dumps (S depth)) l) +:+
      nl +:+ pad depth +:+ "]"
  | PyDict [] => "{}"
  | PyDict d =>
      "{" +:+ nl +:+ pad (S depth) +:+
      String.concat ("," +:+ nl +:+ pad (S depth))
        ((fix items (d : list (string * pyval)) : list string :=
            match d with
            | [] => []
            | (k, x) :: d' => (q k +:+ ": " +:+ dumps (S depth) x) :: items d'
            end) d) +:+
      nl +:+ pad depth +:+ "}"
  end.

Record state : Type := mkState {
  script : list (outcome string);   (* the replies of the model, in order *)
  map_requests : nat;               (* requests made to the map services *)
}.

Definition unavailable : exn :=
  mkExn (OtherException "HfHubHTTPError") "503 Service Unavailable".

Definition chat (model : string) (messages : list message) (max_tokens : Z)
    (s : state) : outcome string * state :=
  match script s with
  | [] => (Raise unavailable, s)
  | r :: rest => (r, mkState rest (map_requests s))
  end.

(** [type(v).__name__] *)
Definition type_name (v : pyval) : string :=
  match v with
  | PyNone => "NoneType"
  | PyBool _ => "bool"
  | PyInt _ => "int"
  | PyFloat _ => "float"
  | PyStr _ => "str"
  | PyList _ => "list"
  | PyDict _ => "dict"
  end.

Definition sq (s : string) : string := "'" +:+ s +:+ "'".

(** The module of a tool function, as [__module__] has it. *)
Definition module_of (fn : string) : string :=
  if String.prefix "osrm_" fn then "map_servers.osrm_server"
  else "map_servers.osm_server".

(** The names of the missing parameters as CPython lists them:
    ['a'], ['a' and 'b'], ['a', 'b', and 'c']. *)
Fixpoint and_last (names : list string) : string :=
  match names with
  | [] => ""
  | [a] => "and " +:+ sq a
  | a :: rest => sq a +:+ ", " +:+ and_last rest
  end.

Definition listing (names : list string) : string :=
  match names with
  | [] => ""
  | [a] => sq a
  | [a; b] => sq a +:+ " and " +:+ sq b
  | _ => and_last names
  end.

(** The messages of CPython 3.12. *)
Definition text_of_fault (f : fault) : string :=
  match f with
  | NotIterable v => "argument of type " +:+ sq (type_name v) +:+
                     " is not iterable"
  | NoAttribute v attr =>
      sq (type_name v) +:+ " object has no attribute " +:+ sq attr
  | BadSubscript (PyStr _) _ => "string indices must be integers, not 'str'"
  | BadSubscript (PyList _) _ =>
      "list indices must be integers or slices, not str"
  | BadSubscript v _ => sq (type_name v) +:+ " object is not subscriptable"
  | NoSuchKey k => sq k
  | Unhashable v => "unhashable type: " +:+ sq (type_name v)
  | NotAMapping fn v =>
      module_of fn +:+ "." +:+ fn +:+
      "() argument after ** must be a mapping, not " +:+ type_name v
  | UnexpectedKeyword fn k =>
      fn +:+ "() got an unexpected keyword argument " +:+ sq k
  | MissingRequired fn names =>
      fn +:+ "() missing " +:+ pretty (Z.of_nat (length names)) +:+
      " required positional argument" +:+
      (if Nat.eqb (length names) 1 then "" else "s") +:+ ": " +:+
      listing names
  end.

Definition runtime
    (tools : string -> list (string * pyval) -> outcome pyval) : Runtime :=
  {| env_state := state;
     chat_completion := chat;
     json_loads := loads;
     json_dumps_indent2 := dumps 0;
     repr := py_repr;
     fault_text := text_of_fault;
     tool_body := fun fn bound s =>
       (tools fn bound, mkState (script s) (S (map_requests s))) |}.

(** A geocoder that finds three places, a road 12.5 m away from any point,
    and routing that finds no route. *)
Definition place (name : string) (lat lon : Z) : pyval :=
  PyDict [("display_name", PyStr name); ("lat", PyInt lat); ("lon", PyInt lon)].

Definition no_routes : exn :=
  mkExn RuntimeError "OSRM returned no routes: {'code': 'NoRoute'}".

Definition three_places : pyval :=
  PyList [place "Tour Eiffel" 48 2;
          place "Eiffel Tower, Paris, TX" 33 (-95);
          place "Eiffel Tower, Las Vegas" 36 (-115)].

Definition snapped (bound : list (string * pyval)) : pyval :=
  PyDict [("snapped_lat", default PyNone (Py.lookup "lat" bound));
          ("snapped_lon", default PyNone (Py.lookup "lon" bound));
          ("distance_m", PyFloat (S754_finite false 25 (-1)))].

Definition tools (fn : string) (bound : list (string * pyval))
  : outcome pyval :=
  if String.eqb fn "osm_geocode_impl" then Return three_places
  else if String.eqb fn "osrm_nearest_road_impl" then Return (snapped bound)
  else Raise no_routes.

Definition demo : Runtime := runtime tools.

(** The world at the start: the model will give [replies], nothing has been
    logged or written. *)
Definition world (replies : list (outcome string)) : World demo :=
  @mkWorld demo (mkState replies 0) [] [].

End Sample.

(** * Properties *)

Arguments TOOL_FUNCTIONS : simpl never.
Arguments build_system_prompt : simpl never.
Arguments decision_messages : simpl never.
Arguments explain_messages : simpl never.
Arguments explain_prompt : simpl never.
Arguments PyString.strip : simpl never.

(** ** Running the monad *)

Section Running.

Context {R : Runtime}.

Local Open Scope py_scope.

Lemma bind_return {A B} (m : M R A) (k : A -> M R B) w a w' :
  m w = (Return a, w') -> bind m k w = k a w'.
Proof. intros H. unfold bind. now rewrite H. Qed.

Lemma bind_raise {A B} (m : M R A) (k : A -> M R B) w e w' :
  m w = (Raise e, w') -> bind m k w = (Raise e, w').
Proof. intros H. unfold bind. now rewrite H. Qed.

Lemma hf_chat_run messages max_tokens (w : World R) r s :
  chat_completion R MODEL_ID messages max_tokens (env w) = (r, s) ->
  _hf_chat R messages max_tokens w
  = (r, after w s [EvChat messages max_tokens]).
Proof.
  intros H. unfold _hf_chat, bind, emit, outside, after. simpl.
  rewrite H. reflexivity.
Qed.

Lemma handle_user_message_dispatch user_message :
  handle_user_message R user_message
  = (decision <- ask_llm_for_tool_or_answer R user_message ;;
     dispatch user_message decision).
Proof. reflexivity. Qed.

(** The decision stage, by what the model replied. *)
Lemma decision_parsed user_message (w : World R) raw s v :
  chat_completion R MODEL_ID (decision_messages R user_message) 512 (env w)
  = (Return raw, s) ->
  json_loads R (PyString.strip raw) = Return v ->
  ask_llm_for_tool_or_answer R user_message w
  = (Return v, after w s [EvChat (decision_messages R user_message) 512]).
Proof.
  intros Hchat Hjson. unfold ask_llm_for_tool_or_answer.
  rewrite (bind_return _ _ _ _ _ (hf_chat_run _ _ _ _ _ Hchat)).
  unfold try_except, pure. now rewrite Hjson.
Qed.

Lemma decision_malformed user_message (w : World R) raw s e :
  chat_completion R MODEL_ID (decision_messages R user_message) 512 (env w)
  = (Return raw, s) ->
  json_loads R (PyString.strip raw) = Raise e ->
  exn_kind e = JSONDecodeError ->
  ask_llm_for_tool_or_answer R user_message w
  = (Return (PyDict [("answer", PyStr (PyString.strip raw))]),
     after w s [EvChat (decision_messages R user_message) 512]).
Proof.
  intros Hchat Hjson Hkind. unfold ask_llm_for_tool_or_answer.
  rewrite (bind_return _ _ _ _ _ (hf_chat_run _ _ _ _ _ Hchat)).
  unfold try_except, pure. now rewrite Hjson, Hkind.
Qed.

Lemma decision_failed user_message (w : World R) e s :
  chat_completion R MODEL_ID (decision_messages R user_message) 512 (env w)
  = (Raise e, s) ->
  ask_llm_for_tool_or_answer R user_message w
  = (Raise e, after w s [EvChat (decision_messages R user_message) 512]).
Proof.
  intros Hchat. unfold ask_llm_for_tool_or_answer.
  now rewrite (bind_raise _ _ _ _ _ (hf_chat_run _ _ _ _ _ Hchat)).
Qed.

(** A dictionary with an answer and no tool is answered directly. *)
Lemma dispatch_direct user_message d a (w : World R) :
  Py.lookup "answer" d = Some a ->
  Py.lookup "tool" d = None ->
  dispatch user_message (PyDict d) w = (Return a, w).
Proof.
  intros Ha Ht. unfold dispatch, bind, py_in, py_getitem, ret, Py.has_key.
  now rewrite Ha, Ht.
Qed.

(** Any other dictionary takes the tool path. *)
Lemma dispatch_tool user_message d (w : World R) :
  Py.has_key "answer" d && negb (Py.has_key "tool" d) = false ->
  dispatch user_message (PyDict d) w
  = tool_path user_message
      (default PyNone (Py.lookup "tool" d))
      (Py.or_else (default (PyDict []) (Py.lookup "args" d)) (PyDict [])) w.
Proof.
  intros H. unfold dispatch, bind, py_in, py_get, ret.
  destruct (Py.has_key "answer" d); simpl in H; [rewrite H|]; reflexivity.
Qed.

Lemma after_after (w : World R) s l s' l' :
  after (after w s l) s' l' = after w s' (l ++ l').
Proof. unfold after. simpl. now rewrite app_assoc. Qed.

Lemma or_else_dict A : Py.or_else (PyDict A) (PyDict []) = PyDict A.
Proof. now destruct A. Qed.

(** A keyword that cannot be bound is a [TypeError]. *)
Lemma bind_kwargs_fault f A flt :
  Call.bind_kwargs f A = inl flt -> fault_class flt = TypeError.
Proof.
  unfold Call.bind_kwargs.
  destruct (Call.unexpected f A); [intros [= <-]; reflexivity|].
  destruct (Call.missing f A); [discriminate|intros [= <-]; reflexivity].
Qed.

Lemma call_bound f A bound (w : World R) r s :
  Call.bind_kwargs f A = inr bound ->
  tool_body R (fun_name f) bound (env w) = (r, s) ->
  call_kwargs R f (PyDict A) w
  = (r, after w s [EvCall (fun_name f) A; EvBody (fun_name f) bound]).
Proof.
  intros Hb Hr. unfold call_kwargs, bind, emit, outside, after. simpl.
  rewrite Hb. simpl. rewrite Hr. now rewrite <- app_assoc.
Qed.

Lemma call_unbound f A flt (w : World R) :
  Call.bind_kwargs f A = inl flt ->
  call_kwargs R f (PyDict A) w
  = (Raise (mkExn TypeError (fault_text R flt)),
     after w (env w) [EvCall (fun_name f) A]).
Proof.
  intros Hb. unfold call_kwargs, bind, emit, throw, raise, after. simpl.
  rewrite Hb. now rewrite (bind_kwargs_fault _ _ _ Hb).
Qed.

Lemma tool_path_unknown user_message T args (w : World R) :
  TOOL_FUNCTIONS !! T = None ->
  tool_path user_message (PyStr T) args w
  = (Return (PyStr (unknown_tool_text R (PyStr T))), w).
Proof.
  intros H. unfold tool_path, bind, find_tool, ret. simpl. now rewrite H.
Qed.

Lemma tool_path_known user_message T f args (w : World R) :
  TOOL_FUNCTIONS !! T = Some f ->
  tool_path user_message (PyStr T) args w
  = (r <- try_tool R T f args ;;
     match r with
     | inr text => ret (PyStr text)
     | inl result =>
         text <- ask_llm_to_explain_result R user_message T args result ;;
         ret (PyStr text)
     end) w.
Proof.
  intros H. unfold tool_path, find_tool. simpl.
  unfold bind at 1. unfold ret at 1. now rewrite H.
Qed.

Lemma explain_run user_message T args result (w : World R) r s :
  chat_completion R MODEL_ID
    (explain_messages R user_message T args result) 512 (env w) = (r, s) ->
  ask_llm_to_explain_result R user_message T args result w
  = (outcome_map PyString.strip r,
     after w s [EvChat (explain_messages R user_message T args result) 512]).
Proof.
  intros H. unfold ask_llm_to_explain_result, bind.
  rewrite (hf_chat_run _ _ _ _ _ H). now destruct r.
Qed.

End Running.

(** ** Strings *)

Lemma substring_prefix (t rest : string) :
  substring 0 (String.length t) (t +:+ rest) = t.
Proof.
  induction t as [|c t IH]; simpl.
  - now destruct rest.
  - now rewrite IH.
Qed.

Lemma substring_middle (pre t rest : string) :
  substring (String.length pre) (String.length t) (pre +:+ t +:+ rest) = t.
Proof.
  induction pre as [|c pre IH].
  - exact (substring_prefix t rest).
  - exact IH.
Qed.

Lemma rev_app_rev_app (s t u : string) :
  String.rev_app (String.rev_app s t) u = String.rev_app t (s +:+ u).
Proof.
  revert t u. induction s as [|c s IH]; intros t u; simpl.
  - reflexivity.
  - now rewrite IH.
Qed.

Lemma append_empty_r (s : string) : s +:+ "" = s.
Proof.
  induction s as [|c s IH]; [reflexivity|].
  change (String c (s +:+ "") = String c s). now rewrite IH.
Qed.

Lemma rev_involutive (s : string) : String.rev (String.rev s) = s.
Proof.
  unfold String.rev. rewrite rev_app_rev_app. exact (append_empty_r s).
Qed.

(** A text with no white space at its start nor at its end is its own
    [strip]. *)
Lemma strip_fixed (s : string) :
  PyString.lstrip s = s ->
  PyString.lstrip (String.rev s) = String.rev s ->
  PyString.strip s = s.
Proof.
  intros Hl Hr. unfold PyString.strip, PyString.rstrip.
  now rewrite Hl, Hr, rev_involutive.
Qed.

(** A text contains, in the sense of [in], what it was built around. *)
Lemma contains_middle (pre t rest : string) :
  PyString.contains t (pre +:+ t +:+ rest) = true.
Proof.
  unfold PyString.contains.
  destruct (index 0 t (pre +:+ t +:+ rest)) as [n|] eqn:E; [reflexivity|].
  exfalso. destruct t as [|c t].
  - apply index_correct4 in E. lia.
  - apply (index_correct3 0 (String.length pre) _ _ E); [discriminate|lia|].
    apply substring_middle.
Qed.

(** ** Keyword binding *)

Lemma unexpected_none f A :
  Call.unexpected f A = None <->
  (forall k v, In (k, v) A -> Call.is_param f k = true).
Proof.
  unfold Call.unexpected. split.
  - intros H k v Hin.
    destruct (List.find _ A) as [kv|] eqn:E; [discriminate|].
    pose proof (find_none _ _ E _ Hin) as Hn. simpl in Hn.
    now destruct (Call.is_param f k).
  - intros H. destruct (List.find _ A) as [[k v]|] eqn:E; [|reflexivity].
    apply find_some in E as [Hin Hn]. simpl in Hn.
    now rewrite (H _ _ Hin) in Hn.
Qed.

Lemma missing_nil f A :
  Call.missing f A = [] <->
  (forall p, In p (fun_params f) -> param_default p = None ->
             Py.has_key (param_name p) A = true).
Proof.
  unfold Call.missing. split.
  - intros H p Hin Hd.
    destruct (Py.has_key (param_name p) A) eqn:E; [reflexivity|].
    apply fmap_nil_inv in H.
    assert (Hp : In p (List.filter
                         (fun p => match param_default p with
                                   | None => negb (Py.has_key (param_name p) A)
                                   | Some _ => false
                                   end) (fun_params f))).
    { apply filter_In. split; [assumption|]. now rewrite Hd, E. }
    rewrite H in Hp. destruct Hp.
  - intros H.
    destruct (List.filter _ (fun_params f)) as [|p ps] eqn:E; [reflexivity|].
    assert (Hp : In p (p :: ps)) by now left.
    rewrite <- E in Hp. apply filter_In in Hp as [Hin Hc].
    destruct (param_default p) eqn:Hd; [discriminate|].
    now rewrite (H _ Hin Hd) in Hc.
Qed.

(** Binding fails exactly on an extra keyword or a missing required
    parameter. *)
Lemma bind_kwargs_fails f A :
  fails_to_bind f A <-> exists flt, Call.bind_kwargs f A = inl flt.
Proof.
  unfold fails_to_bind, Call.bind_kwargs. split.
  - intros H.
    destruct (Call.unexpected f A) as [k|] eqn:Eu; [now eexists|].
    destruct (Call.missing f A) as [|n ns] eqn:Em; [|now eexists].
    exfalso. destruct H as [(k & v & Hin & Hp)|(p & Hin & Hd & Hk)].
    + rewrite (proj1 (unexpected_none f A) Eu _ _ Hin) in Hp. discriminate.
    + rewrite (proj1 (missing_nil f A) Em _ Hin Hd) in Hk. discriminate.
  - intros [flt H].
    destruct (Call.unexpected f A) as [k|] eqn:Eu.
    + left. unfold Call.unexpected in Eu.
      destruct (List.find _ A) as [[k' v]|] eqn:E; [|discriminate].
      apply find_some in E as [Hin Hn]. simpl in Hn.
      exists k', v. split; [assumption|]. now destruct (Call.is_param f k').
    + destruct (Call.missing f A) as [|n ns] eqn:Em; [discriminate|].
      right. unfold Call.missing in Em.
      destruct (List.filter _ (fun_params f)) as [|p ps] eqn:E;
        [discriminate|].
      assert (Hp : In p (p :: ps)) by now left.
      rewrite <- E in Hp. apply filter_In in Hp as [Hin Hc].
      exists p. split; [assumption|].
      destruct (param_default p); [discriminate|].
      split; [reflexivity|]. now destruct (Py.has_key (param_name p) A).
Qed.

(** ** The turn, by the decision of the model *)

Section Turn.

Context {R : Runtime}.

Import PyString.

(** C2.  When the decision of the model parses to an object with an
    ["answer"] string and no ["tool"] key, the turn returns exactly that
    string; the only event of the turn is the request of the decision stage:
    no tool is called and no explanation is asked for. *)
Theorem direct_answer_is_returned user_message (w : World R) raw s d a :
  model_replies w user_message raw s ->
  json_loads R (strip raw) = Return (PyDict d) ->
  Py.lookup "answer" d = Some (PyStr a) ->
  Py.lookup "tool" d = None ->
  handle_user_message R user_message w
  = (Return (PyStr a),
     after w s [EvChat (decision_messages R user_message) 512]).
Proof.
  intros Hchat Hjson Ha Ht. rewrite handle_user_message_dispatch.
  rewrite (bind_return _ _ _ _ _ (decision_parsed _ _ _ _ _ Hchat Hjson)).
  now apply dispatch_direct.
Qed.

(** C3, as the code has it.  When [json.loads] rejects the stripped reply of
    the model with a [JSONDecodeError], the decision stage does not raise: it
    yields the object whose ["answer"] is the reply with the white space
    around it stripped, and the turn returns that stripped text. *)
Theorem malformed_reply_is_stripped_answer user_message (w : World R) raw s e :
  model_replies w user_message raw s ->
  json_loads R (strip raw) = Raise e ->
  exn_kind e = JSONDecodeError ->
  ask_llm_for_tool_or_answer R user_message w
  = (Return (PyDict [("answer", PyStr (strip raw))]),
     after w s [EvChat (decision_messages R user_message) 512])
  /\ handle_user_message R user_message w
     = (Return (PyStr (strip raw)),
        after w s [EvChat (decision_messages R user_message) 512]).
Proof.
  intros Hchat Hjson Hkind.
  pose proof (decision_malformed _ _ _ _ _ Hchat Hjson Hkind) as Hask.
  split; [exact Hask|].
  rewrite handle_user_message_dispatch.
  rewrite (bind_return _ _ _ _ _ Hask).
  now apply dispatch_direct.
Qed.

Lemma has_tool_takes_tool_path d v :
  Py.lookup "tool" d = Some v ->
  Py.has_key "answer" d && negb (Py.has_key "tool" d) = false.
Proof. intros H. unfold Py.has_key. rewrite H. apply andb_false_r. Qed.

(** C5.  When the decision names a tool [T] that is not a key of
    [TOOL_FUNCTIONS], the turn raises nothing and returns a text that is not
    empty and contains [T]: the apology that quotes it.  The only event of
    the turn is the request of the decision stage: no tool is called. *)
Theorem unknown_tool_is_reported user_message (w : World R) raw s d T :
  model_replies w user_message raw s ->
  json_loads R (strip raw) = Return (PyDict d) ->
  Py.lookup "tool" d = Some (PyStr T) ->
  TOOL_FUNCTIONS !! T = None ->
  exists text,
    handle_user_message R user_message w
    = (Return (PyStr text),
       after w s [EvChat (decision_messages R user_message) 512])
    /\ text = "I tried to call an unknown tool '" +:+ T +:+
               "'. Please refine your request."
    /\ text <> ""
    /\ contains T text = true.
Proof.
  intros Hchat Hjson Ht Hnone. eexists. split; [|split; [reflexivity|]].
  - rewrite handle_user_message_dispatch.
    rewrite (bind_return _ _ _ _ _ (decision_parsed _ _ _ _ _ Hchat Hjson)).
    rewrite dispatch_tool by (eapply has_tool_takes_tool_path; eassumption).
    rewrite Ht. simpl. now apply tool_path_unknown.
  - split; [discriminate|]. apply contains_middle.
Qed.

(** C6.  When the decision names a tool [T] of [TOOL_FUNCTIONS] with
    keywords [A] that do not fit its parameters (an extra keyword, or a
    required parameter missing), the turn returns the text of the call
    error, which quotes [T] and prints [A]; nothing is raised.  The call is
    entered but the body of the tool never runs, and the outside is in the
    state the decision stage left it in: no request goes to a map service. *)
Theorem bad_arguments_are_reported user_message (w : World R) raw s d T A f :
  model_replies w user_message raw s ->
  json_loads R (strip raw) = Return (PyDict d) ->
  Py.lookup "tool" d = Some (PyStr T) ->
  Py.lookup "args" d = Some (PyDict A) ->
  TOOL_FUNCTIONS !! T = Some f ->
  fails_to_bind f A ->
  exists flt,
    Call.bind_kwargs f A = inl flt
    /\ handle_user_message R user_message w
       = (Return (PyStr ("There was an error calling tool '" +:+ T +:+
                         "' with arguments " +:+ repr R (PyDict A) +:+
                         ": " +:+ fault_text R flt)),
          after w s [EvChat (decision_messages R user_message) 512;
                     EvCall (fun_name f) A]).
Proof.
  intros Hchat Hjson Ht Ha Hf Hbad.
  apply bind_kwargs_fails in Hbad as [flt Hflt]. exists flt.
  split; [assumption|]. rewrite handle_user_message_dispatch.
  rewrite (bind_return _ _ _ _ _ (decision_parsed _ _ _ _ _ Hchat Hjson)).
  rewrite dispatch_tool by (eapply has_tool_takes_tool_path; eassumption).
  rewrite Ht, Ha. simpl default. rewrite or_else_dict.
  rewrite (tool_path_known _ _ _ _ _ Hf).
  unfold bind at 1. unfold try_tool, try_except.
  rewrite (bind_raise _ _ _ _ _ (call_unbound _ _ _ _ Hflt)).
  simpl. unfold ret. now rewrite after_after.
Qed.

Lemma run_tool_bound user_message T f A bound (w : World R) :
  TOOL_FUNCTIONS !! T = Some f ->
  Call.bind_kwargs f A = inr bound ->
  tool_path user_message (PyStr T) (PyDict A) w
  = run_tool user_message T f A bound w.
Proof.
  intros Hf Hb. rewrite (tool_path_known _ _ _ _ _ Hf).
  unfold run_tool, bind at 1, try_tool, try_except.
  destruct (tool_body R (fun_name f) bound (env w)) as [[result|e] s'] eqn:Hbody.
  - rewrite (bind_return _ _ _ _ _ (call_bound _ _ _ _ _ _ Hb Hbody)).
    unfold ret at 1, bind.
    destruct (ask_llm_to_explain_result R user_message T (PyDict A) result _)
      as [[text|e] w'']; reflexivity.
  - rewrite (bind_raise _ _ _ _ _ (call_bound _ _ _ _ _ _ Hb Hbody)).
    unfold tool_error.
    destruct (is_TypeError (exn_kind e)); [reflexivity|].
    destruct (is_Exception (exn_kind e)); reflexivity.
Qed.

(** The turn of a decision whose keywords bind. *)
Lemma bound_tool_turn user_message (w : World R) raw s d T A f bound :
  model_replies w user_message raw s ->
  json_loads R (strip raw) = Return (PyDict d) ->
  Py.lookup "tool" d = Some (PyStr T) ->
  Py.lookup "args" d = Some (PyDict A) ->
  TOOL_FUNCTIONS !! T = Some f ->
  Call.bind_kwargs f A = inr bound ->
  handle_user_message R user_message w
  = run_tool user_message T f A bound
      (after w s [EvChat (decision_messages R user_message) 512]).
Proof.
  intros Hchat Hjson Ht Ha Hf Hb. rewrite handle_user_message_dispatch.
  rewrite (bind_return _ _ _ _ _ (decision_parsed _ _ _ _ _ Hchat Hjson)).
  rewrite dispatch_tool by (eapply has_tool_takes_tool_path; eassumption).
  rewrite Ht, Ha. simpl default. rewrite or_else_dict.
  now apply run_tool_bound.
Qed.

(** C1, as the code has it.  When the decision names a tool [T] of
    [TOOL_FUNCTIONS] with keywords [A] that bind to its parameters, and the
    body of the tool returns [result], the turn ends as the explanation stage
    does on [T], [A] and [result]: it returns the text that stage returns, or
    raises what it raises.  The tool has then been called once, with the
    keywords [A]. *)
Theorem tool_result_is_explained
    user_message (w : World R) raw s d T A f bound result s' :
  model_replies w user_message raw s ->
  json_loads R (strip raw) = Return (PyDict d) ->
  Py.lookup "tool" d = Some (PyStr T) ->
  Py.lookup "args" d = Some (PyDict A) ->
  TOOL_FUNCTIONS !! T = Some f ->
  Call.bind_kwargs f A = inr bound ->
  tool_body R (fun_name f) bound s = (Return result, s') ->
  handle_user_message R user_message w
  = (outcome_map PyStr
       (fst (ask_llm_to_explain_result R user_message T (PyDict A) result
               (after w s' [EvChat (decision_messages R user_message) 512;
                            EvCall (fun_name f) A;
                            EvBody (fun_name f) bound]))),
     snd (ask_llm_to_explain_result R user_message T (PyDict A) result
            (after w s' [EvChat (decision_messages R user_message) 512;
                         EvCall (fun_name f) A;
                         EvBody (fun_name f) bound])))
  /\ tool_events (new_events w (snd (handle_user_message R user_message w)))
     = [EvCall (fun_name f) A; EvBody (fun_name f) bound].
Proof.
  intros Hchat Hjson Ht Ha Hf Hb Hbody.
  assert (Hrun : handle_user_message R user_message w
    = (outcome_map PyStr
         (fst (ask_llm_to_explain_result R user_message T (PyDict A) result
                 (after w s' [EvChat (decision_messages R user_message) 512;
                              EvCall (fun_name f) A;
                              EvBody (fun_name f) bound]))),
       snd (ask_llm_to_explain_result R user_message T (PyDict A) result
              (after w s' [EvChat (decision_messages R user_message) 512;
                           EvCall (fun_name f) A;
                           EvBody (fun_name f) bound])))).
  { rewrite (bound_tool_turn _ _ _ _ _ _ _ _ _ Hchat Hjson Ht Ha Hf Hb).
    unfold run_tool. simpl env. rewrite Hbody.
    rewrite after_after. reflexivity. }
  split; [exact Hrun|]. rewrite Hrun. simpl snd.
  destruct (chat_completion R MODEL_ID
              (explain_messages R user_message T (PyDict A) result) 512 s')
    as [r s''] eqn:Hex.
  erewrite explain_run by exact Hex.
  unfold new_events, after. simpl log.
  rewrite <- app_assoc, drop_app_length. reflexivity.
Qed.

(** A decision that is no dictionary makes [dispatch] raise. *)
Lemma dispatch_non_object user_message v :
  Py.is_dict v = false ->
  exists e,
    (forall w : World R, dispatch user_message v w = (Raise e, w))
    /\ (exn_kind e = TypeError \/ exn_kind e = AttributeError).
Proof.
  intros Hv. unfold dispatch, bind, py_in, py_getitem, py_get, throw, raise, ret.
  destruct v as [| b | n | x | t | l | d]; try discriminate Hv;
    try (eexists; split; [reflexivity|left; reflexivity]).
  - destruct (contains "answer" t); [destruct (contains "tool" t)|]; simpl;
      eexists; (split; [reflexivity|]); auto.
  - destruct (existsb (Py.eq_str "answer") l);
      [destruct (existsb (Py.eq_str "tool") l)|]; simpl;
      eexists; (split; [reflexivity|]); auto.
Qed.

(** C4, where the code goes wrong.  When the reply of the model parses to a
    JSON value that is no object (an array, a string, a number, a boolean,
    null), the turn raises a [TypeError] or an [AttributeError]: the
    exception leaves [handle_user_message]. *)
Theorem non_object_decision_raises user_message (w : World R) raw s v :
  model_replies w user_message raw s ->
  json_loads R (strip raw) = Return v ->
  Py.is_dict v = false ->
  exists e,
    handle_user_message R user_message w
    = (Raise e, after w s [EvChat (decision_messages R user_message) 512])
    /\ (exn_kind e = TypeError \/ exn_kind e = AttributeError).
Proof.
  intros Hchat Hjson Hv. rewrite handle_user_message_dispatch.
  rewrite (bind_return _ _ _ _ _ (decision_parsed _ _ _ _ _ Hchat Hjson)).
  destruct (dispatch_non_object user_message v Hv) as (e & He & Hk).
  exists e. now rewrite He.
Qed.

(** An object with neither key is taken for a call of the tool [None]. *)
Lemma keyless_object_is_unknown_tool user_message (w : World R) raw s d :
  model_replies w user_message raw s ->
  json_loads R (strip raw) = Return (PyDict d) ->
  Py.lookup "answer" d = None ->
  Py.lookup "tool" d = None ->
  handle_user_message R user_message w
  = (Return (PyStr ("I tried to call an unknown tool '" +:+ repr R PyNone +:+
                    "'. Please refine your request.")),
     after w s [EvChat (decision_messages R user_message) 512]).
Proof.
  intros Hchat Hjson Ha Ht. rewrite handle_user_message_dispatch.
  rewrite (bind_return _ _ _ _ _ (decision_parsed _ _ _ _ _ Hchat Hjson)).
  rewrite dispatch_tool by (unfold Py.has_key; now rewrite Ha).
  rewrite Ht. reflexivity.
Qed.

(** C8, as the code has it.  The explanation stage returns the reply of the
    model with the white space around it stripped, and nothing else done to
    it. *)
Theorem explanation_is_stripped_reply
    user_message T args result (w : World R) raw s :
  chat_completion R MODEL_ID
    (explain_messages R user_message T args result) 512 (env w)
  = (Return raw, s) ->
  ask_llm_to_explain_result R user_message T args result w
  = (Return (strip raw),
     after w s [EvChat (explain_messages R user_message T args result) 512]).
Proof. intros H. now rewrite (explain_run _ _ _ _ _ _ _ H). Qed.

(** A failure of the model is an exception of the turn. *)
Lemma model_failure_raises user_message (w : World R) e w' :
  model_failure w user_message e w' ->
  handle_user_message R user_message w = (Raise e, w').
Proof.
  intros [s Hchat | raw s d T A f bound result s' s''
                     Hchat Hjson Ht Ha Hf Hb Hbody Hex].
  - rewrite handle_user_message_dispatch.
    now rewrite (bind_raise _ _ _ _ _ (decision_failed _ _ _ _ Hchat)).
  - rewrite (bound_tool_turn _ _ _ _ _ _ _ _ _ Hchat Hjson Ht Ha Hf Hb).
    unfold run_tool. simpl env. rewrite Hbody.
    erewrite explain_run by exact Hex. simpl. now rewrite !after_after.
Qed.

(** An exception of the turn is an exception of the loop. *)
Lemma repl_raises l keys (w : World R) e w' :
  is_quit (strip l) = false ->
  is_empty (strip l) = false ->
  handle_user_message R (strip l) (prompted w) = (Raise e, w') ->
  repl R (Line l :: keys) w = (Raise e, w').
Proof.
  intros Hq He Hrun. simpl. unfold bind at 1. unfold write at 1.
  rewrite Hq, He. fold (prompted w).
  now rewrite (bind_raise _ _ _ _ _ Hrun).
Qed.

(** C7, as the code has it.  When the language model fails in the decision
    stage or in the explanation stage of the turn for the line [l], its
    exception leaves [handle_user_message] and the loop of [main] with it:
    the loop ends there, whatever input is left, and has written nothing
    after the prompt of that turn. *)
Theorem model_failure_ends_repl l keys (w : World R) e w' :
  is_quit (strip l) = false ->
  is_empty (strip l) = false ->
  model_failure (prompted w) (strip l) e w' ->
  repl R (Line l :: keys) w = (Raise e, w')
  /\ stdout w' = (stdout w ++ ["You: "])%list.
Proof.
  intros Hq He Hfail. split.
  - apply repl_raises; [assumption..|]. now apply model_failure_raises.
  - destruct Hfail; reflexivity.
Qed.

(** An unhashable tool name (a JSON array or object) is a [TypeError] of
    the membership test, outside any [try]. *)
Lemma unhashable_tool_raises user_message (w : World R) raw s d v :
  model_replies w user_message raw s ->
  json_loads R (strip raw) = Return (PyDict d) ->
  Py.lookup "tool" d = Some v ->
  Py.hashable v = false ->
  handle_user_message R user_message w
  = (Raise (mkExn TypeError (fault_text R (Unhashable v))),
     after w s [EvChat (decision_messages R user_message) 512]).
Proof.
  intros Hchat Hjson Ht Hv. rewrite handle_user_message_dispatch.
  rewrite (bind_return _ _ _ _ _ (decision_parsed _ _ _ _ _ Hchat Hjson)).
  rewrite dispatch_tool by (eapply has_tool_takes_tool_path; eassumption).
  rewrite Ht. simpl default. unfold tool_path, bind, find_tool.
  now rewrite Hv.
Qed.

(** The three courses of the tool path: nothing happens outside (unknown
    tool, fault of the interpreter, keywords that are no mapping); the call
    is entered and the binding fails; the body of the tool runs. *)
Lemma tool_path_cases user_message tool_name args :
  (exists r, forall w : World R,
      tool_path user_message tool_name args w = (r, w))
  \/ (exists f A r, forall w : World R,
         tool_path user_message tool_name args w
         = (r, after w (env w) [EvCall (fun_name f) A]))
  \/ (exists T f A bound, forall w : World R,
         tool_path user_message tool_name args w
         = run_tool user_message T f A bound w).
Proof.
  destruct tool_name as [| b | n | x | T | l | d];
    try (left; eexists; intros w; reflexivity).
  destruct (TOOL_FUNCTIONS !! T) as [f|] eqn:Hf.
  2:{ left. eexists. intros w. now apply tool_path_unknown. }
  destruct args as [| b | n | x | t | l | A].
  7:{ destruct (Call.bind_kwargs f A) as [flt|bound] eqn:Hb.
      - right. left. exists f, A. eexists. intros w.
        rewrite (tool_path_known _ _ _ _ _ Hf).
        unfold bind at 1. unfold try_tool, try_except.
        rewrite (bind_raise _ _ _ _ _ (call_unbound _ _ _ _ Hb)).
        reflexivity.
      - right. right. exists T, f, A, bound. intros w.
        now apply run_tool_bound. }
  all: left; eexists; intros w; rewrite (tool_path_known _ _ _ _ _ Hf);
    reflexivity.
Qed.

Lemma dispatch_cases user_message v :
  (exists r, forall w : World R, dispatch user_message v w = (r, w))
  \/ (exists f A r, forall w : World R,
         dispatch user_message v w
         = (r, after w (env w) [EvCall (fun_name f) A]))
  \/ (exists T f A bound, forall w : World R,
         dispatch user_message v w = run_tool user_message T f A bound w).
Proof.
  destruct (Py.is_dict v) eqn:Hv.
  - destruct v as [| | | | | | d]; try discriminate Hv.
    destruct (Py.has_key "answer" d && negb (Py.has_key "tool" d)) eqn:Hd.
    + left. apply andb_prop in Hd as [Ha Ht]. unfold Py.has_key in Ha, Ht.
      destruct (Py.lookup "answer" d) as [a|] eqn:Ea; [|discriminate].
      destruct (Py.lookup "tool" d) eqn:Et; [discriminate|].
      exists (Return a). intros w. now apply dispatch_direct.
    + destruct (tool_path_cases user_message
                  (default PyNone (Py.lookup "tool" d))
                  (Py.or_else (default (PyDict []) (Py.lookup "args" d))
                     (PyDict [])))
        as [(r & H)|[(f & A & r & H)|(T & f & A & bound & H)]].
      * left. exists r. intros w. now rewrite dispatch_tool.
      * right. left. exists f, A, r. intros w. now rewrite dispatch_tool.
      * right. right. exists T, f, A, bound. intros w.
        now rewrite dispatch_tool.
  - left. destruct (dispatch_non_object user_message v Hv) as (e & He & _).
    now exists (Raise e).
Qed.

Lemma decision_run user_message (w : World R) raw s :
  model_replies w user_message raw s ->
  ask_llm_for_tool_or_answer R user_message w
  = (decision_of R raw,
     after w s [EvChat (decision_messages R user_message) 512]).
Proof.
  intros Hchat. unfold ask_llm_for_tool_or_answer, decision_of.
  rewrite (bind_return _ _ _ _ _ (hf_chat_run _ _ _ _ _ Hchat)).
  unfold try_except, pure.
  destruct (json_loads R (strip raw)) as [v|e]; [reflexivity|].
  destruct (is_JSONDecodeError (exn_kind e)); reflexivity.
Qed.

Lemma class_after (w : World R) s events r :
  outcome_class w (r, after w s events)
  = mkClass (tool_events events) (2 <=? model_calls events)%nat
      (if (2 <=? model_calls events)%nat then None else Some r).
Proof.
  unfold outcome_class, new_events, after. simpl.
  now rewrite drop_app_length.
Qed.

(** C9.  Take two turns on the same user message, in any two worlds.  If
    the model gives the same reply (or fails alike) in the decision stage of
    both, and the outcome of a tool depends on its name and arguments only,
    then both turns have the same class: they make the same tool calls with
    the same arguments (or none); both go on to the explanation stage or
    neither does; and when they do not, they return the same answer or the
    same error text, or raise the same exception. *)
Theorem same_decision_same_class user_message (w1 w2 : World R) :
  fst (chat_completion R MODEL_ID (decision_messages R user_message) 512
         (env w1))
  = fst (chat_completion R MODEL_ID (decision_messages R user_message) 512
           (env w2)) ->
  (forall fn bound s1 s2,
      fst (tool_body R fn bound s1) = fst (tool_body R fn bound s2)) ->
  outcome_class w1 (handle_user_message R user_message w1)
  = outcome_class w2 (handle_user_message R user_message w2).
Proof.
  intros Hsame Hdet.
  destruct (chat_completion R MODEL_ID (decision_messages R user_message) 512
              (env w1)) as [r1 s1] eqn:E1.
  destruct (chat_completion R MODEL_ID (decision_messages R user_message) 512
              (env w2)) as [r2 s2] eqn:E2.
  simpl in Hsame. subst r2. rewrite !handle_user_message_dispatch.
  destruct r1 as [raw|e].
  2:{ rewrite !(bind_raise _ _ _ _ _ (decision_failed _ _ _ _ E1)).
      rewrite !(bind_raise _ _ _ _ _ (decision_failed _ _ _ _ E2)).
      now rewrite !class_after. }
  pose proof (decision_run _ _ _ _ E1) as H1.
  pose proof (decision_run _ _ _ _ E2) as H2.
  destruct (decision_of R raw) as [v|e].
  2:{ rewrite (bind_raise _ _ _ _ _ H1), (bind_raise _ _ _ _ _ H2).
      now rewrite !class_after. }
  rewrite (bind_return _ _ _ _ _ H1), (bind_return _ _ _ _ _ H2).
  destruct (dispatch_cases user_message v)
    as [(r & H)|[(f & A & r & H)|(T & f & A & bound & H)]]; rewrite !H.
  - now rewrite !class_after.
  - rewrite !after_after. now rewrite !class_after.
  - unfold run_tool. simpl env.
    specialize (Hdet (fun_name f) bound s1 s2).
    destruct (tool_body R (fun_name f) bound s1) as [o1 t1].
    destruct (tool_body R (fun_name f) bound s2) as [o2 t2].
    simpl in Hdet. subst o2. destruct o1 as [result|e].
    + destruct (chat_completion R MODEL_ID
                  (explain_messages R user_message T (PyDict A) result) 512 t1)
        as [x1 y1] eqn:X1.
      destruct (chat_completion R MODEL_ID
                  (explain_messages R user_message T (PyDict A) result) 512 t2)
        as [x2 y2] eqn:X2.
      rewrite !after_after.
      erewrite !explain_run by (first [exact X1 | exact X2]).
      simpl fst. simpl snd. rewrite !after_after. now rewrite !class_after.
    + rewrite !after_after. now rewrite !class_after.
Qed.

(** C10.  The direct branch is taken only when ["answer"] is present and
    ["tool"] is absent: on every other decision object, and so on one that
    has both keys, the turn is the tool path, run on the value under
    ["tool"] and on the arguments under ["args"], from the world the
    decision stage left.  And an answer beside a tool is read by nobody:
    when ["tool"] is present, a decision that differs at most in its
    ["answer"] key, in its presence or in its value, gives the same outcome
    and the same final world. *)
Theorem answer_beside_tool_is_ignored user_message (w : World R) raw s d :
  model_replies w user_message raw s ->
  json_loads R (strip raw) = Return (PyDict d) ->
  Py.has_key "answer" d && negb (Py.has_key "tool" d) = false ->
  handle_user_message R user_message w
  = tool_path user_message
      (default PyNone (Py.lookup "tool" d))
      (Py.or_else (default (PyDict []) (Py.lookup "args" d)) (PyDict []))
      (after w s [EvChat (decision_messages R user_message) 512])
  /\ (Py.has_key "tool" d = true ->
      forall (w' : World R) raw' d',
        model_replies w' user_message raw' s ->
        log w' = log w ->
        stdout w' = stdout w ->
        json_loads R (strip raw') = Return (PyDict d') ->
        (forall k, k <> "answer" -> Py.lookup k d' = Py.lookup k d) ->
        handle_user_message R user_message w'
        = handle_user_message R user_message w).
Proof.
  intros Hchat Hjson Hcond.
  assert (Hpath : handle_user_message R user_message w
                  = tool_path user_message
                      (default PyNone (Py.lookup "tool" d))
                      (Py.or_else (default (PyDict []) (Py.lookup "args" d))
                         (PyDict []))
                      (after w s [EvChat (decision_messages R user_message) 512])).
  { rewrite handle_user_message_dispatch.
    rewrite (bind_return _ _ _ _ _ (decision_parsed _ _ _ _ _ Hchat Hjson)).
    now apply dispatch_tool. }
  split; [exact Hpath|].
  intros Htool w' raw' d' Hchat' Hlog Hout Hjson' Hsame.
  rewrite Hpath. rewrite handle_user_message_dispatch.
  rewrite (bind_return _ _ _ _ _ (decision_parsed _ _ _ _ _ Hchat' Hjson')).
  assert (Htool' : Py.has_key "tool" d' = true).
  { unfold Py.has_key in *. now rewrite Hsame. }
  rewrite dispatch_tool by (rewrite Htool'; apply andb_false_r).
  rewrite !Hsame by discriminate.
  unfold after. now rewrite Hlog, Hout.
Qed.

End Turn.

(** ** Runs of the sample runtime *)

Module Runs.

Import PyString Sample.

(** A road is looked for near a point: the keywords bind, the default of
    [profile] is filled in, the tool is called once, and the user gets the
    explanation of the model. *)
Lemma nearest_road_run :
  handle_user_message demo "Which road is this?"
    (world [Return nearest_text; Return " Rue de Rivoli. "])
  = (outcome_map PyStr
       (fst (ask_llm_to_explain_result demo "Which road is this?"
               "osrm_nearest_road" (PyDict nearest_args)
               (snapped (nearest_args ++ [("profile", PyStr "driving")]))
               (after (world [Return nearest_text; Return " Rue de Rivoli. "])
                  (mkState [Return " Rue de Rivoli. "] 1)
                  [EvChat (decision_messages demo "Which road is this?") 512;
                   EvCall "osrm_nearest_road_impl" nearest_args;
                   EvBody "osrm_nearest_road_impl"
                     (nearest_args ++ [("profile", PyStr "driving")])]))),
     snd (ask_llm_to_explain_result demo "Which road is this?"
            "osrm_nearest_road" (PyDict nearest_args)
            (snapped (nearest_args ++ [("profile", PyStr "driving")]))
            (after (world [Return nearest_text; Return " Rue de Rivoli. "])
               (mkState [Return " Rue de Rivoli. "] 1)
               [EvChat (decision_messages demo "Which road is this?") 512;
                EvCall "osrm_nearest_road_impl" nearest_args;
                EvBody "osrm_nearest_road_impl"
                  (nearest_args ++ [("profile", PyStr "driving")])])))
  /\ tool_events
       (new_events (world [Return nearest_text; Return " Rue de Rivoli. "])
          (snd (handle_user_message demo "Which road is this?"
                  (world [Return nearest_text; Return " Rue de Rivoli. "]))))
     = [EvCall "osrm_nearest_road_impl" nearest_args;
        EvBody "osrm_nearest_road_impl"
          (nearest_args ++ [("profile", PyStr "driving")])].
Proof.
  exact (tool_result_is_explained (R := demo) "Which road is this?"
           (world [Return nearest_text; Return " Rue de Rivoli. "])
           nearest_text (mkState [Return " Rue de Rivoli. "] 0)
           [("tool", PyStr "osrm_nearest_road"); ("args", PyDict nearest_args)]
           "osrm_nearest_road" nearest_args MapServers.osrm_nearest_road_impl
           (nearest_args ++ [("profile", PyStr "driving")])
           (snapped (nearest_args ++ [("profile", PyStr "driving")]))
           (mkState [Return " Rue de Rivoli. "] 1)
           eq_refl eq_refl eq_refl eq_refl eq_refl eq_refl eq_refl).
Defined.

(** The same run, evaluated. *)
Lemma nearest_road_answer :
  fst (handle_user_message demo "Which road is this?"
         (world [Return nearest_text; Return " Rue de Rivoli. "]))
  = Return (PyStr "Rue de Rivoli.").
Proof. vm_compute. reflexivity. Qed.

(** The scenario of the Eiffel Tower: the geocoder is called once, with the
    query and the limit of the decision, and the user gets the explanation
    of the model, not the list of places. *)
Lemma eiffel_tower_scenario :
  fst (handle_user_message demo "Geocode the Eiffel Tower"
         (world [Return geocode_text; Return "The tower is in Paris."]))
  = Return (PyStr "The tower is in Paris.")
  /\ tool_events
       (log (snd (handle_user_message demo "Geocode the Eiffel Tower"
                    (world [Return geocode_text;
                            Return "The tower is in Paris."]))))
     = [EvCall "osm_geocode_impl" geocode_args;
        EvBody "osm_geocode_impl" geocode_args].
Proof. split; vm_compute; reflexivity. Qed.

(** C1 fails when the tool fails: the request names the tool
    [osrm_route_driving] of the registry, its four keywords bind, the body
    runs and finds no route.  The turn returns the text of the failure; the
    model is asked once, for the decision, and its second reply is never
    fetched. *)
Lemma failing_tool_is_not_explained :
  TOOL_FUNCTIONS !! "osrm_route_driving"
  = Some MapServers.osrm_route_driving_impl
  /\ Call.bind_kwargs MapServers.osrm_route_driving_impl route_args
     = inr route_args
  /\ json_loads demo (strip route_text)
     = Return (PyDict [("tool", PyStr "osrm_route_driving");
                       ("args", PyDict route_args)])
  /\ handle_user_message demo "Drive me from A to B"
       (world [Return route_text; Return "It takes an hour."])
     = (Return (PyStr ("Tool 'osrm_route_driving' failed with an exception: "
                       +:+ exn_text no_routes)),
        after (world [Return route_text; Return "It takes an hour."])
          (mkState [Return "It takes an hour."] 1)
          [EvChat (decision_messages demo "Drive me from A to B") 512;
           EvCall "osrm_route_driving_impl" route_args;
           EvBody "osrm_route_driving_impl" route_args]).
Proof. repeat split; vm_compute; reflexivity. Qed.

Lemma direct_answer_run :
  handle_user_message demo "What is OSRM?" (world [Return answer_text])
  = (Return (PyStr "OSRM is a routing engine."),
     after (world [Return answer_text]) (mkState [] 0)
       [EvChat (decision_messages demo "What is OSRM?") 512]).
Proof.
  exact (direct_answer_is_returned (R := demo) "What is OSRM?"
           (world [Return answer_text]) answer_text (mkState [] 0)
           [("answer", PyStr "OSRM is a routing engine.")]
           "OSRM is a routing engine."
           eq_refl eq_refl eq_refl eq_refl).
Defined.

Lemma prose_reply_run :
  ask_llm_for_tool_or_answer demo "Hello"
    (world [Return " I can only help with maps. "])
  = (Return (PyDict [("answer", PyStr "I can only help with maps.")]),
     after (world [Return " I can only help with maps. "]) (mkState [] 0)
       [EvChat (decision_messages demo "Hello") 512])
  /\ handle_user_message demo "Hello"
       (world [Return " I can only help with maps. "])
     = (Return (PyStr "I can only help with maps."),
        after (world [Return " I can only help with maps. "]) (mkState [] 0)
          [EvChat (decision_messages demo "Hello") 512]).
Proof.
  exact (malformed_reply_is_stripped_answer (R := demo) "Hello"
           (world [Return " I can only help with maps. "])
           " I can only help with maps. " (mkState [] 0)
           (mkExn JSONDecodeError "Expecting value")
           eq_refl eq_refl eq_refl).
Defined.

(** C3 fails on a reply with white space around it: the reply is no JSON,
    and the answer is the stripped reply, not the reply. *)
Lemma padded_prose_is_not_verbatim :
  json_loads demo " I can only help with maps. "
  = Raise (mkExn JSONDecodeError "Expecting value")
  /\ fst (ask_llm_for_tool_or_answer demo "Hello"
            (world [Return " I can only help with maps. "]))
     = Return (PyDict [("answer", PyStr "I can only help with maps.")])
  /\ fst (handle_user_message demo "Hello"
            (world [Return " I can only help with maps. "]))
     = Return (PyStr "I can only help with maps.")
  /\ PyStr "I can only help with maps."
     <> PyStr " I can only help with maps. ".
Proof. repeat split; try (vm_compute; reflexivity). discriminate. Qed.

Lemma array_reply_run :
  exists e,
    handle_user_message demo "Hello" (world [Return array_text])
    = (Raise e,
       after (world [Return array_text]) (mkState [] 0)
         [EvChat (decision_messages demo "Hello") 512])
    /\ (exn_kind e = TypeError \/ exn_kind e = AttributeError).
Proof.
  exact (non_object_decision_raises (R := demo) "Hello"
           (world [Return array_text]) array_text (mkState [] 0)
           (PyList [PyInt 1; PyInt 2]) eq_refl eq_refl eq_refl).
Defined.

(** On the reply [[1, 2]], a JSON array, the turn raises the
    [AttributeError] of [decision.get]. *)
Lemma array_reply_raises_AttributeError :
  json_loads demo (strip array_text) = Return (PyList [PyInt 1; PyInt 2])
  /\ fst (handle_user_message demo "Hello" (world [Return array_text]))
     = Raise (mkExn AttributeError
                (fault_text demo
                   (NoAttribute (PyList [PyInt 1; PyInt 2]) "get"))).
Proof. split; vm_compute; reflexivity. Qed.

Lemma teleport_run :
  exists text,
    handle_user_message demo "Beam me up" (world [Return teleport_text])
    = (Return (PyStr text),
       after (world [Return teleport_text]) (mkState [] 0)
         [EvChat (decision_messages demo "Beam me up") 512])
    /\ text = "I tried to call an unknown tool '" +:+ "osm_teleport" +:+
              "'. Please refine your request."
    /\ text <> ""
    /\ contains "osm_teleport" text = true.
Proof.
  exact (unknown_tool_is_reported (R := demo) "Beam me up"
           (world [Return teleport_text]) teleport_text (mkState [] 0)
           [("tool", PyStr "osm_teleport"); ("args", PyDict [])]
           "osm_teleport" eq_refl eq_refl eq_refl eq_refl).
Defined.

Lemma short_route_run :
  exists flt,
    Call.bind_kwargs MapServers.osrm_route_driving_impl short_route_args
    = inl flt
    /\ handle_user_message demo "Drive me north"
         (world [Return short_route_text])
       = (Return (PyStr ("There was an error calling tool '" +:+
                         "osrm_route_driving" +:+ "' with arguments " +:+
                         repr demo (PyDict short_route_args) +:+ ": " +:+
                         fault_text demo flt)),
          after (world [Return short_route_text]) (mkState [] 0)
            [EvChat (decision_messages demo "Drive me north") 512;
             EvCall (fun_name MapServers.osrm_route_driving_impl)
               short_route_args]).
Proof.
  refine (bad_arguments_are_reported (R := demo) "Drive me north"
            (world [Return short_route_text]) short_route_text (mkState [] 0)
            [("tool", PyStr "osrm_route_driving");
             ("args", PyDict short_route_args)]
            "osrm_route_driving" short_route_args
            MapServers.osrm_route_driving_impl
            eq_refl eq_refl eq_refl eq_refl eq_refl _).
  right. exists (required "end_lat").
  split; [simpl; tauto|split; reflexivity].
Defined.

(** With two parameters missing, the text names the tool and prints the
    keywords, and no request has gone to a map service. *)
Lemma short_route_text_and_requests :
  fst (handle_user_message demo "Drive me north"
         (world [Return short_route_text]))
  = Return (PyStr ("There was an error calling tool 'osrm_route_driving' "
                   +:+ "with arguments {'start_lat': 52, 'start_lon': 13}: "
                   +:+ "osrm_route_driving_impl() missing 2 required "
                   +:+ "positional arguments: 'end_lat' and 'end_lon'"))
  /\ map_requests
       (env (snd (handle_user_message demo "Drive me north"
                    (world [Return short_route_text])))) = 0%nat.
Proof. split; vm_compute; reflexivity. Qed.

Lemma model_down_run :
  repl demo [Line "hello"; Line "again"] (world [])
  = (Raise unavailable,
     after (prompted (world [])) (mkState [] 0)
       [EvChat (decision_messages demo (strip "hello")) 512])
  /\ stdout (after (prompted (world [])) (mkState [] 0)
               [EvChat (decision_messages demo (strip "hello")) 512])
     = (stdout (world []) ++ ["You: "])%list.
Proof.
  exact (model_failure_ends_repl (R := demo) "hello" [Line "again"]
           (world []) unavailable _ eq_refl eq_refl
           (decision_stage_fails (prompted (world [])) (strip "hello")
              unavailable (mkState [] 0) eq_refl)).
Defined.

(** C7 fails: the user has two lines to give, the model is down at the
    first, and [main] ends with the exception of the model after one prompt;
    the second line is never asked for. *)
Lemma loop_does_not_survive_model_failure :
  fst (main demo [Line "hello"; Line "again"] (world []))
  = Raise unavailable
  /\ prompts (snd (main demo [Line "hello"; Line "again"] (world [])))
     = 1%nat.
Proof. split; vm_compute; reflexivity. Qed.

(** When the model is up, the same two lines get two answers and three
    prompts, the last one at the end of the input. *)
Lemma loop_goes_on_when_model_answers :
  fst (main demo [Line "hello"; Line "again"]
         (world [Return answer_text; Return answer_text]))
  = Return tt
  /\ prompts (snd (main demo [Line "hello"; Line "again"]
                     (world [Return answer_text; Return answer_text])))
     = 3%nat.
Proof. split; vm_compute; reflexivity. Qed.

Lemma padded_explanation_run :
  ask_llm_to_explain_result demo "Geocode the Eiffel Tower" "osm_geocode"
    (PyDict geocode_args) (PyList [])
    (world [Return " The tower is in Paris. "])
  = (Return (strip " The tower is in Paris. "),
     after (world [Return " The tower is in Paris. "]) (mkState [] 0)
       [EvChat (explain_messages demo "Geocode the Eiffel Tower"
                  "osm_geocode" (PyDict geocode_args) (PyList [])) 512]).
Proof.
  exact (explanation_is_stripped_reply (R := demo) "Geocode the Eiffel Tower"
           "osm_geocode" (PyDict geocode_args) (PyList [])
           (world [Return " The tower is in Paris. "])
           " The tower is in Paris. " (mkState [] 0) eq_refl).
Defined.

(** C8 fails on a reply with white space around it: the explanation stage
    returns the stripped reply. *)
Lemma padded_explanation_is_not_verbatim :
  fst (chat_completion demo MODEL_ID
         (explain_messages demo "Geocode the Eiffel Tower" "osm_geocode"
            (PyDict geocode_args) (PyList []))
         512 (env (world [Return " The tower is in Paris. "])))
  = Return " The tower is in Paris. "
  /\ fst (ask_llm_to_explain_result demo "Geocode the Eiffel Tower"
            "osm_geocode" (PyDict geocode_args) (PyList [])
            (world [Return " The tower is in Paris. "]))
     = Return "The tower is in Paris."
  /\ "The tower is in Paris." <> " The tower is in Paris. ".
Proof. repeat split; try (vm_compute; reflexivity). discriminate. Qed.

(** Two turns in which the model decides alike; it explains in the first
    and fails in the second. *)
Lemma same_class_with_two_explanations :
  outcome_class
    (world [Return nearest_text; Return "Rue de Rivoli."])
    (handle_user_message demo "Which road is this?"
       (world [Return nearest_text; Return "Rue de Rivoli."]))
  = outcome_class
      (world [Return nearest_text; Raise unavailable])
      (handle_user_message demo "Which road is this?"
         (world [Return nearest_text; Raise unavailable])).
Proof.
  apply (same_decision_same_class (R := demo) "Which road is this?"
           (world [Return nearest_text; Return "Rue de Rivoli."])
           (world [Return nearest_text; Raise unavailable])).
  - reflexivity.
  - intros fn bound s1 s2. reflexivity.
Defined.

(** The class of these two turns. *)
Lemma class_of_nearest_road_run :
  outcome_class
    (world [Return nearest_text; Raise unavailable])
    (handle_user_message demo "Which road is this?"
       (world [Return nearest_text; Raise unavailable]))
  = mkClass
      [EvCall "osrm_nearest_road_impl" nearest_args;
       EvBody "osrm_nearest_road_impl"
         (nearest_args ++ [("profile", PyStr "driving")])]
      true None.
Proof. vm_compute. reflexivity. Qed.

(** The model answers and names the nearest-road tool in one object: the
    turn is the tool path on that tool and its arguments, and another
    answer beside them changes nothing. *)
Lemma two_answers_beside_a_tool :
  handle_user_message demo "Which road is this?"
    (world [Return (both_text "Let me look."); Return "Rue de Rivoli."])
  = @tool_path demo "Which road is this?"
      (PyStr "osrm_nearest_road") (PyDict nearest_args)
      (after
         (world [Return (both_text "Let me look."); Return "Rue de Rivoli."])
         (mkState [Return "Rue de Rivoli."] 0)
         [EvChat (decision_messages demo "Which road is this?") 512])
  /\ handle_user_message demo "Which road is this?"
       (world [Return (both_text "One moment."); Return "Rue de Rivoli."])
     = handle_user_message demo "Which road is this?"
         (world [Return (both_text "Let me look."); Return "Rue de Rivoli."]).
Proof.
  destruct (answer_beside_tool_is_ignored (R := demo) "Which road is this?"
              (world [Return (both_text "Let me look.");
                      Return "Rue de Rivoli."])
              (both_text "Let me look.")
              (mkState [Return "Rue de Rivoli."] 0)
              [("answer", PyStr "Let me look.");
               ("tool", PyStr "osrm_nearest_road");
               ("args", PyDict nearest_args)]
              eq_refl eq_refl eq_refl) as [Hpath Hsame].
  split; [exact Hpath|].
  apply (Hsame eq_refl
           (world [Return (both_text "One moment."); Return "Rue de Rivoli."])
           (both_text "One moment.")
           [("answer", PyStr "One moment.");
            ("tool", PyStr "osrm_nearest_road");
            ("args", PyDict nearest_args)]);
    try reflexivity.
  intros k Hk. simpl.
  destruct (String.eqb_spec k "answer") as [Heq|_];
    [contradiction|reflexivity].
Defined.

(** The answer beside the tool is not what the user gets: the tool is
    called once, with the arguments of the decision, and the user gets the
    explanation of its result. *)
Lemma answer_beside_tool_run :
  handle_user_message demo "Which road is this?"
    (world [Return (both_text "Let me look."); Return "Rue de Rivoli."])
  = (Return (PyStr "Rue de Rivoli."),
     after
       (world [Return (both_text "Let me look."); Return "Rue de Rivoli."])
       (mkState [] 1)
       [EvChat (decision_messages demo "Which road is this?") 512;
        EvCall "osrm_nearest_road_impl" nearest_args;
        EvBody "osrm_nearest_road_impl"
          (nearest_args ++ [("profile", PyStr "driving")]);
        EvChat
          (explain_messages demo "Which road is this?" "osrm_nearest_road"
             (PyDict nearest_args)
             (snapped (nearest_args ++ [("profile", PyStr "driving")])))
          512]).
Proof. vm_compute. reflexivity. Qed.

End Runs.

(** * More of the agent *)

(** ** The events of a turn, and the lines of the loop *)

(** The shapes the events of one turn can have: the request of the decision
    stage; then at most one call of a tool; its body, if the keywords bind;
    and the request of the explanation stage, if the body returns. *)
Inductive turn_events : list event -> Prop :=
| decided m : turn_events [EvChat m 512]
| refused m fn A : turn_events [EvChat m 512; EvCall fn A]
| ran m fn A bound :
    turn_events [EvChat m 512; EvCall fn A; EvBody fn bound]
| ran_and_explained m fn A bound m' :
    turn_events [EvChat m 512; EvCall fn A; EvBody fn bound; EvChat m' 512].

Definition is_body (e : event) : bool :=
  match e with EvBody _ _ => true | _ => false end.

(** The number of tool bodies started among some events. *)
Definition tool_runs (events : list event) : nat :=
  length (List.filter is_body events).

(** A line with nothing but white space. *)
Definition blank (k : keyboard) : Prop :=
  exists l, k = Line l /\ PyString.is_empty (PyString.strip l) = true.

(** A function with a parameter that has no default. *)
Definition has_required (f : pyfun) : Prop :=
  exists p, In p (fun_params f) /\ param_default p = None.

(** [t] occurs in [s]. *)
Definition mentions (t s : string) : Prop :=
  exists pre rest, s = pre +:+ t +:+ rest.

(** ** One turn *)

Section MoreTurn.

Context {R : Runtime}.

Import PyString.

(** The events of a turn have one of the four shapes, and the turn writes
    nothing. *)
Lemma turn_run_shape user_message (w : World R) :
  exists events,
    log (snd (handle_user_message R user_message w)) = (log w ++ events)%list
    /\ turn_events events
    /\ stdout (snd (handle_user_message R user_message w)) = stdout w.
Proof.
  rewrite handle_user_message_dispatch.
  destruct (chat_completion R MODEL_ID (decision_messages R user_message) 512
              (env w)) as [[raw|e] s] eqn:Hchat.
  2:{ rewrite (bind_raise _ _ _ _ _ (decision_failed _ _ _ _ Hchat)).
      eexists. repeat split. constructor. }
  pose proof (decision_run _ _ _ _ Hchat) as Hask.
  destruct (decision_of R raw) as [v|e].
  2:{ rewrite (bind_raise _ _ _ _ _ Hask). eexists. repeat split.
      constructor. }
  rewrite (bind_return _ _ _ _ _ Hask).
  destruct (dispatch_cases (R := R) user_message v)
    as [(r & H)|[(f & A & r & H)|(T & f & A & bound & H)]]; rewrite H.
  - eexists. repeat split. constructor.
  - rewrite after_after. eexists. repeat split. constructor.
  - unfold run_tool. simpl env.
    destruct (tool_body R (fun_name f) bound s) as [[result|e] s'].
    + destruct (chat_completion R MODEL_ID
                  (explain_messages R user_message T (PyDict A) result) 512 s')
        as [x y] eqn:Hex.
      rewrite after_after. erewrite explain_run by exact Hex.
      simpl snd. rewrite after_after. eexists. repeat split. constructor.
    + rewrite after_after. eexists. repeat split. constructor.
Qed.

(** X1.  Whatever the model and the tools do, one turn only adds to the
    log, writes nothing to the terminal, asks the model at most twice and
    starts at most one tool body. *)
Theorem turn_is_bounded user_message (w : World R) :
  exists events,
    log (snd (handle_user_message R user_message w)) = (log w ++ events)%list
    /\ stdout (snd (handle_user_message R user_message w)) = stdout w
    /\ (1 <= model_calls events <= 2)%nat
    /\ (tool_runs events <= 1)%nat.
Proof.
  destruct (turn_run_shape user_message w) as (events & Hlog & Hshape & Hout).
  exists events. split; [exact Hlog|]. split; [exact Hout|].
  destruct Hshape; unfold model_calls, tool_runs; simpl; lia.
Qed.

End MoreTurn.

(** ** What becomes of a tool that raises, and of arguments that are none *)

Section ToolErrors.

Context {R : Runtime}.

Import PyString.

(** The turn of a decision whose keywords bind and whose tool raises. *)
Lemma raising_tool_turn user_message (w : World R) raw s d T A f bound e s' :
  model_replies w user_message raw s ->
  json_loads R (strip raw) = Return (PyDict d) ->
  Py.lookup "tool" d = Some (PyStr T) ->
  Py.lookup "args" d = Some (PyDict A) ->
  TOOL_FUNCTIONS !! T = Some f ->
  Call.bind_kwargs f A = inr bound ->
  tool_body R (fun_name f) bound s = (Raise e, s') ->
  handle_user_message R user_message w
  = (tool_error R T (PyDict A) e,
     after w s' [EvChat (decision_messages R user_message) 512;
                 EvCall (fun_name f) A; EvBody (fun_name f) bound]).
Proof.
  intros Hchat Hjson Ht Ha Hf Hb Hbody.
  rewrite (bound_tool_turn _ _ _ _ _ _ _ _ _ Hchat Hjson Ht Ha Hf Hb).
  unfold run_tool. simpl env. rewrite Hbody. now rewrite after_after.
Qed.

(** X2.  When the keywords bind and the body of the tool raises an
    exception that [except Exception] catches and that is no [TypeError]
    (an HTTP error, a [RuntimeError] for an empty result), the turn returns
    the text that names the tool and carries the message of the exception;
    the model is not asked to explain anything. *)
Theorem tool_failure_is_reported
    user_message (w : World R) raw s d T A f bound e s' :
  model_replies w user_message raw s ->
  json_loads R (strip raw) = Return (PyDict d) ->
  Py.lookup "tool" d = Some (PyStr T) ->
  Py.lookup "args" d = Some (PyDict A) ->
  TOOL_FUNCTIONS !! T = Some f ->
  Call.bind_kwargs f A = inr bound ->
  tool_body R (fun_name f) bound s = (Raise e, s') ->
  is_Exception (exn_kind e) = true ->
  is_TypeError (exn_kind e) = false ->
  handle_user_message R user_message w
  = (Return (PyStr ("Tool '" +:+ T +:+ "' failed with an exception: " +:+
                    exn_text e)),
     after w s' [EvChat (decision_messages R user_message) 512;
                 EvCall (fun_name f) A; EvBody (fun_name f) bound]).
Proof.
  intros Hchat Hjson Ht Ha Hf Hb Hbody Hexc Hty.
  rewrite (raising_tool_turn _ _ _ _ _ _ _ _ _ _ _
             Hchat Hjson Ht Ha Hf Hb Hbody).
  unfold tool_error. now rewrite Hty, Hexc.
Qed.

(** X3.  A [TypeError] raised inside the body of the tool, after the
    keywords have bound, gets the text of a call with bad arguments: the
    two cases are not told apart. *)
Theorem type_error_of_tool_reads_as_bad_call
    user_message (w : World R) raw s d T A f bound e s' :
  model_replies w user_message raw s ->
  json_loads R (strip raw) = Return (PyDict d) ->
  Py.lookup "tool" d = Some (PyStr T) ->
  Py.lookup "args" d = Some (PyDict A) ->
  TOOL_FUNCTIONS !! T = Some f ->
  Call.bind_kwargs f A = inr bound ->
  tool_body R (fun_name f) bound s = (Raise e, s') ->
  exn_kind e = TypeError ->
  handle_user_message R user_message w
  = (Return (PyStr ("There was an error calling tool '" +:+ T +:+
                    "' with arguments " +:+ repr R (PyDict A) +:+ ": " +:+
                    exn_text e)),
     after w s' [EvChat (decision_messages R user_message) 512;
                 EvCall (fun_name f) A; EvBody (fun_name f) bound]).
Proof.
  intros Hchat Hjson Ht Ha Hf Hb Hbody Hty.
  rewrite (raising_tool_turn _ _ _ _ _ _ _ _ _ _ _
             Hchat Hjson Ht Ha Hf Hb Hbody).
  unfold tool_error. now rewrite Hty.
Qed.

(** X4.  An exception of the tool that [except Exception] does not catch
    (a [KeyboardInterrupt], a [SystemExit]) leaves [handle_user_message]
    as it is. *)
Theorem interrupt_of_tool_is_not_caught
    user_message (w : World R) raw s d T A f bound e s' :
  model_replies w user_message raw s ->
  json_loads R (strip raw) = Return (PyDict d) ->
  Py.lookup "tool" d = Some (PyStr T) ->
  Py.lookup "args" d = Some (PyDict A) ->
  TOOL_FUNCTIONS !! T = Some f ->
  Call.bind_kwargs f A = inr bound ->
  tool_body R (fun_name f) bound s = (Raise e, s') ->
  exn_kind e = KeyboardInterrupt \/ exn_kind e = SystemExit ->
  handle_user_message R user_message w
  = (Raise e,
     after w s' [EvChat (decision_messages R user_message) 512;
                 EvCall (fun_name f) A; EvBody (fun_name f) bound]).
Proof.
  intros Hchat Hjson Ht Ha Hf Hb Hbody Hkind.
  rewrite (raising_tool_turn _ _ _ _ _ _ _ _ _ _ _
             Hchat Hjson Ht Ha Hf Hb Hbody).
  unfold tool_error. now destruct Hkind as [-> | ->].
Qed.

Lemma missing_of_required f :
  has_required f -> Call.missing f [] <> [].
Proof.
  intros (p & Hin & Hd) Hnil.
  pose proof (proj1 (missing_nil f []) Hnil p Hin Hd) as H. discriminate.
Qed.

(** X5.  When the decision names a tool of the registry and has no
    ["args"], or has ["args"] that are falsy (null, false, 0, an empty
    string, list or object), the tool is called with no keyword at all.  For
    a function with a required parameter the call fails at binding: the turn
    returns the text of the call error, which prints the empty dictionary,
    and the body of the tool does not run. *)
Theorem absent_args_call_with_nothing user_message (w : World R) raw s d T f :
  model_replies w user_message raw s ->
  json_loads R (strip raw) = Return (PyDict d) ->
  Py.lookup "tool" d = Some (PyStr T) ->
  Py.truthy (default (PyDict []) (Py.lookup "args" d)) = false ->
  TOOL_FUNCTIONS !! T = Some f ->
  has_required f ->
  handle_user_message R user_message w
  = (Return (PyStr ("There was an error calling tool '" +:+ T +:+
                    "' with arguments " +:+ repr R (PyDict []) +:+ ": " +:+
                    fault_text R
                      (MissingRequired (fun_name f) (Call.missing f [])))),
     after w s [EvChat (decision_messages R user_message) 512;
                EvCall (fun_name f) []]).
Proof.
  intros Hchat Hjson Ht Hfalsy Hf Hreq.
  rewrite handle_user_message_dispatch.
  rewrite (bind_return _ _ _ _ _ (decision_parsed _ _ _ _ _ Hchat Hjson)).
  rewrite dispatch_tool by (eapply has_tool_takes_tool_path; eassumption).
  rewrite Ht. simpl default at 1. unfold Py.or_else. rewrite Hfalsy.
  rewrite (tool_path_known _ _ _ _ _ Hf).
  assert (Hb : Call.bind_kwargs f []
               = inl (MissingRequired (fun_name f) (Call.missing f []))).
  { unfold Call.bind_kwargs. simpl.
    pose proof (missing_of_required f Hreq) as Hm.
    now destruct (Call.missing f []). }
  unfold bind at 1. unfold try_tool, try_except.
  rewrite (bind_raise _ _ _ _ _ (call_unbound _ _ _ _ Hb)).
  simpl. unfold ret. now rewrite after_after.
Qed.

(** X6.  When the ["args"] of the decision are truthy and no object (a
    list, a string, a number), the call [tool_fn( **args )] is a [TypeError]
    before any function is entered: the turn returns the text of the call
    error with these arguments, and its only event is the request of the
    decision stage. *)
Theorem args_that_are_no_mapping user_message (w : World R) raw s d T f v :
  model_replies w user_message raw s ->
  json_loads R (strip raw) = Return (PyDict d) ->
  Py.lookup "tool" d = Some (PyStr T) ->
  Py.lookup "args" d = Some v ->
  Py.truthy v = true ->
  Py.is_dict v = false ->
  TOOL_FUNCTIONS !! T = Some f ->
  handle_user_message R user_message w
  = (Return (PyStr ("There was an error calling tool '" +:+ T +:+
                    "' with arguments " +:+ str R v +:+ ": " +:+
                    fault_text R (NotAMapping (fun_name f) v))),
     after w s [EvChat (decision_messages R user_message) 512]).
Proof.
  intros Hchat Hjson Ht Ha Htrue Hnd Hf.
  rewrite handle_user_message_dispatch.
  rewrite (bind_return _ _ _ _ _ (decision_parsed _ _ _ _ _ Hchat Hjson)).
  rewrite dispatch_tool by (eapply has_tool_takes_tool_path; eassumption).
  rewrite Ht, Ha. simpl default. unfold Py.or_else. rewrite Htrue.
  rewrite (tool_path_known _ _ _ _ _ Hf).
  destruct v; try discriminate Hnd; reflexivity.
Qed.

(** X7.  An ["answer"] of any JSON type, beside no ["tool"], is returned
    as it is: a number, a list or null comes back unchanged, not as text. *)
Theorem answer_of_any_type_is_returned user_message (w : World R) raw s d a :
  model_replies w user_message raw s ->
  json_loads R (strip raw) = Return (PyDict d) ->
  Py.lookup "answer" d = Some a ->
  Py.lookup "tool" d = None ->
  handle_user_message R user_message w
  = (Return a, after w s [EvChat (decision_messages R user_message) 512]).
Proof.
  intros Hchat Hjson Ha Ht. rewrite handle_user_message_dispatch.
  rewrite (bind_return _ _ _ _ _ (decision_parsed _ _ _ _ _ Hchat Hjson)).
  now apply dispatch_direct.
Qed.

(** X8.  Only a [JSONDecodeError] of [json.loads] is turned into an
    answer: any other exception of the parser leaves the decision stage and
    the turn. *)
Theorem other_parser_errors_are_raised user_message (w : World R) raw s e :
  model_replies w user_message raw s ->
  json_loads R (strip raw) = Raise e ->
  is_JSONDecodeError (exn_kind e) = false ->
  handle_user_message R user_message w
  = (Raise e, after w s [EvChat (decision_messages R user_message) 512]).
Proof.
  intros Hchat Hjson Hkind. rewrite handle_user_message_dispatch.
  pose proof (decision_run _ _ _ _ Hchat) as Hask.
  unfold decision_of in Hask. rewrite Hjson, Hkind in Hask.
  now rewrite (bind_raise _ _ _ _ _ Hask).
Qed.

End ToolErrors.

(** ** Keywords and parameters *)

Lemma lookup_In k v (A : list (string * pyval)) :
  Py.lookup k A = Some v -> In (k, v) A.
Proof.
  induction A as [|[k' v'] A IH]; simpl; [discriminate|].
  destruct (String.eqb_spec k k') as [->|_].
  - intros [= ->]. now left.
  - intros H. right. now apply IH.
Qed.

Lemma In_lookup k v (A : list (string * pyval)) :
  List.NoDup (List.map fst A) -> In (k, v) A -> Py.lookup k A = Some v.
Proof.
  induction A as [|[k' v'] A IH]; simpl; [intros _ []|].
  intros Hnd [[= -> ->]|Hin].
  - now rewrite String.eqb_refl.
  - apply List.NoDup_cons_iff in Hnd as [Hk Hnd].
    destruct (String.eqb_spec k k') as [->|_]; [|now apply IH].
    exfalso. apply Hk. now apply (in_map fst) in Hin.
Qed.

(** Dictionaries with the same items, in whatever order, give the same
    value to every key. *)
Lemma lookup_permutation k (A A' : list (string * pyval)) :
  Permutation A A' -> List.NoDup (List.map fst A) ->
  Py.lookup k A' = Py.lookup k A.
Proof.
  intros Hp Hnd.
  assert (Hnd' : List.NoDup (List.map fst A')).
  { eapply Permutation_NoDup; [|exact Hnd]. now apply Permutation_map. }
  destruct (Py.lookup k A) as [v|] eqn:E.
  - apply In_lookup; [assumption|].
    eapply Permutation_in; [exact Hp|]. now apply lookup_In.
  - destruct (Py.lookup k A') as [v'|] eqn:E'; [|reflexivity].
    apply lookup_In in E'. apply Permutation_sym in Hp.
    apply (Permutation_in _ Hp) in E'.
    now rewrite (In_lookup _ _ _ Hnd E') in E.
Qed.

Lemma bind_kwargs_bound f A bound :
  Call.bind_kwargs f A = inr bound ->
  Call.unexpected f A = None
  /\ Call.missing f A = []
  /\ bound = List.map (Call.bound_value A) (fun_params f).
Proof.
  unfold Call.bind_kwargs.
  destruct (Call.unexpected f A); [discriminate|].
  destruct (Call.missing f A); [|discriminate].
  now intros [= <-].
Qed.

(** X9.  Keywords are bound by name: a dictionary with the same items in
    another order binds to the same values of the parameters. *)
Theorem binding_ignores_keyword_order f (A A' bound : list (string * pyval)) :
  Permutation A A' ->
  List.NoDup (List.map fst A) ->
  Call.bind_kwargs f A = inr bound ->
  Call.bind_kwargs f A' = inr bound.
Proof.
  intros Hp Hnd Hb. apply bind_kwargs_bound in Hb as (Hu & Hm & ->).
  assert (Hu' : Call.unexpected f A' = None).
  { apply unexpected_none. intros k v Hin.
    apply (proj1 (unexpected_none f A) Hu k v).
    eapply Permutation_in; [apply Permutation_sym; exact Hp|exact Hin]. }
  assert (Hm' : Call.missing f A' = []).
  { apply missing_nil. intros p Hin Hd. unfold Py.has_key.
    rewrite (lookup_permutation _ _ _ Hp Hnd).
    exact (proj1 (missing_nil f A) Hm p Hin Hd). }
  unfold Call.bind_kwargs. rewrite Hu', Hm'. f_equal.
  apply map_ext. intros p. unfold Call.bound_value.
  now rewrite (lookup_permutation _ _ _ Hp Hnd).
Qed.

(** X10.  When the keywords bind, the function gets one value for each of
    its parameters, in the order of its signature; every keyword is passed
    on with its value; and a value that is no keyword is the default of its
    parameter. *)
Theorem binding_passes_keywords_on f (A bound : list (string * pyval)) :
  Call.bind_kwargs f A = inr bound ->
  List.map fst bound = List.map param_name (fun_params f)
  /\ (forall k v, Py.lookup k A = Some v -> In (k, v) bound)
  /\ (forall k v, In (k, v) bound ->
        Py.lookup k A = Some v
        \/ (Py.lookup k A = None
            /\ exists p, In p (fun_params f) /\ param_name p = k
                         /\ param_default p = Some v)).
Proof.
  intros Hb. apply bind_kwargs_bound in Hb as (Hu & Hm & ->).
  split; [|split].
  - rewrite map_map. now apply map_ext.
  - intros k v Hk.
    pose proof (proj1 (unexpected_none f A) Hu k v (lookup_In _ _ _ Hk)) as Hp.
    unfold Call.is_param in Hp. apply existsb_exists in Hp as (p & Hin & Heq).
    apply String.eqb_eq in Heq. subst k. apply in_map_iff. exists p.
    split; [|assumption]. unfold Call.bound_value. now rewrite Hk.
  - intros k v Hin. apply in_map_iff in Hin as (p & Heq & Hin).
    unfold Call.bound_value in Heq. injection Heq as <- Hv.
    destruct (Py.lookup (param_name p) A) as [x|] eqn:E.
    + left. now subst.
    + right. split; [reflexivity|]. exists p.
      split; [assumption|]. split; [reflexivity|].
      destruct (param_default p) as [dv|] eqn:Hd; [now subst|].
      pose proof (proj1 (missing_nil f A) Hm p Hin Hd) as Hk.
      unfold Py.has_key in Hk. now rewrite E in Hk.
Qed.

(** ** The registry and the schema *)

Lemma append_assoc (a b c : string) : (a +:+ b) +:+ c = a +:+ (b +:+ c).
Proof.
  induction a as [|x a IH]; [reflexivity|].
  change (String x ((a +:+ b) +:+ c) = String x (a +:+ (b +:+ c))).
  now rewrite IH.
Qed.

Lemma mentions_end t : mentions t t.
Proof. exists "", "". symmetry. exact (append_empty_r t). Qed.

Lemma mentions_here t rest : mentions t (t +:+ rest).
Proof. now exists "", rest. Qed.

Lemma mentions_app_r a t s : mentions t s -> mentions t (a +:+ s).
Proof.
  intros (pre & rest & ->). exists (a +:+ pre), rest.
  now rewrite append_assoc.
Qed.

Lemma mentions_app_l t s b : mentions t s -> mentions t (s +:+ b).
Proof.
  intros (pre & rest & ->). exists pre, (rest +:+ b).
  now rewrite !append_assoc.
Qed.

Lemma mentions_contains t s : mentions t s -> PyString.contains t s = true.
Proof. intros (pre & rest & ->). apply contains_middle. Qed.

(** Looks for [t] among the pieces a text is appended from. *)
Ltac find_mention :=
  lazymatch goal with
  | |- mentions ?t ?t => apply mentions_end
  | |- mentions ?t (?t +:+ _) => apply mentions_here
  | |- mentions _ (_ +:+ _) =>
      first [ apply mentions_app_r; find_mention
            | apply mentions_app_l; find_mention ]
  end.

Lemma registry_lookup_other T :
  T <> "osm_geocode" -> T <> "osm_reverse_geocode" -> T <> "osm_search_poi" ->
  T <> "osrm_route_driving" -> T <> "osrm_route_cycling" ->
  T <> "osrm_nearest_road" ->
  TOOL_FUNCTIONS !! T = None /\ schema_get T _tool_schema = None.
Proof.
  intros H1 H2 H3 H4 H5 H6. split.
  - unfold TOOL_FUNCTIONS. cbn [list_to_map foldr fst snd].
    rewrite !lookup_insert_ne by congruence. apply lookup_empty.
  - unfold _tool_schema. cbn [schema_get].
    now rewrite !(proj2 (String.eqb_neq _ _)) by assumption.
Qed.

(** X11.  The registry of functions and the schema shown to the model
    name the same tools: what the model is told about can be called, and
    what can be called has a description for the explanation prompt. *)
Theorem registry_and_schema_name_the_same_tools T :
  is_Some (TOOL_FUNCTIONS !! T) <-> is_Some (schema_get T _tool_schema).
Proof.
  destruct (decide (T = "osm_geocode")) as [->|H1];
    [split; intros _; eexists; reflexivity|].
  destruct (decide (T = "osm_reverse_geocode")) as [->|H2];
    [split; intros _; eexists; reflexivity|].
  destruct (decide (T = "osm_search_poi")) as [->|H3];
    [split; intros _; eexists; reflexivity|].
  destruct (decide (T = "osrm_route_driving")) as [->|H4];
    [split; intros _; eexists; reflexivity|].
  destruct (decide (T = "osrm_route_cycling")) as [->|H5];
    [split; intros _; eexists; reflexivity|].
  destruct (decide (T = "osrm_nearest_road")) as [->|H6];
    [split; intros _; eexists; reflexivity|].
  destruct (registry_lookup_other T H1 H2 H3 H4 H5 H6) as [-> ->].
  split; intros [x Hx]; discriminate.
Qed.

(** The schema entry and the signature agree on a parameter: same name,
    and marked as required exactly when it has no default. *)
Definition describes (entry : string * string) (p : param) : Prop :=
  fst entry = param_name p
  /\ (PyString.contains "(required)" (snd entry) = true
      <-> param_default p = None).

(** X12.  For the three OSRM tools, the schema shown to the model lists
    the parameters of the function of [osrm_server.py], in the order of its
    signature, and marks as required exactly those without a default. *)
Theorem schema_describes_osrm_signatures T f :
  In T ["osrm_route_driving"; "osrm_route_cycling"; "osrm_nearest_road"] ->
  TOOL_FUNCTIONS !! T = Some f ->
  exists spec,
    schema_get T _tool_schema = Some spec
    /\ Forall2 describes (args spec) (fun_params f).
Proof.
  intros [<-|[<-|[<-|[]]]] [= <-]; eexists; (split; [reflexivity|]);
    repeat constructor; cbn; try reflexivity; intros; discriminate.
Qed.

(** ** The system prompt *)

Section Prompt.

Context (R : Runtime).

(** X13.  Whatever [json.dumps] prints, the system prompt of the decision
    stage contains, for every tool of the schema, its name, its description
    and the JSON of its arguments. *)
Theorem system_prompt_presents_every_tool T spec :
  In (T, spec) _tool_schema ->
  PyString.contains T (build_system_prompt R) = true
  /\ PyString.contains (description spec) (build_system_prompt R) = true
  /\ PyString.contains (json_dumps_indent2 R (args_dict (args spec)))
       (build_system_prompt R) = true.
Proof.
  intros Hin. unfold _tool_schema in Hin.
  repeat (destruct Hin as [[= <- <-]|Hin]); [..|destruct Hin];
    (repeat split; apply mentions_contains;
     unfold build_system_prompt, _tool_schema;
     cbn [fmap list_fmap String.concat description args];
     find_mention).
Qed.

End Prompt.

(** ** The loop *)

Section Loop.

Context {R : Runtime}.

Import PyString.

Lemma model_calls_app a b :
  model_calls (a ++ b) = (model_calls a + model_calls b)%nat.
Proof. unfold model_calls. now rewrite List.filter_app, List.length_app. Qed.

Lemma tool_runs_app a b :
  tool_runs (a ++ b) = (tool_runs a + tool_runs b)%nat.
Proof. unfold tool_runs. now rewrite List.filter_app, List.length_app. Qed.

Lemma empty_is_no_quit s : is_empty s = true -> is_quit s = false.
Proof. now destruct s. Qed.

Lemma exit_run (w : World R) :
  (write "You: " ;; print (nl +:+ "Exiting."))%py w
  = (Return tt,
     mkWorld (env w) (log w)
       (stdout w ++ ["You: "; nl +:+ "Exiting." +:+ nl])%list).
Proof. unfold print, bind, write. cbn. now rewrite <- app_assoc. Qed.

(** X14.  Lines of white space are skipped: on an input of blank lines
    only, the loop asks the model nothing, prompts once for each line and
    once more, and leaves at the end of the input. *)
Theorem blank_lines_ask_nothing keys (w : World R) :
  List.Forall blank keys ->
  repl R keys w
  = (Return tt,
     mkWorld (env w) (log w)
       (stdout w ++ repeat "You: " (S (length keys))
        ++ [nl +:+ "Exiting." +:+ nl])%list).
Proof.
  intros Hall. revert w.
  induction Hall as [|k keys (l & -> & Hl) _ IH]; intros w.
  - cbn [repl]. now rewrite exit_run.
  - cbn [repl]. unfold bind at 1, write at 1.
    rewrite (empty_is_no_quit _ Hl), Hl. rewrite IH. cbn.
    now rewrite <- app_assoc.
Qed.

(** X15.  Whatever is typed and whatever the model and the tools do, the
    loop only adds to the log and to the terminal, asks the model at most
    twice for each line and starts at most one tool body for each line. *)
Theorem loop_is_bounded keys (w : World R) :
  exists events out,
    log (snd (repl R keys w)) = (log w ++ events)%list
    /\ stdout (snd (repl R keys w)) = (stdout w ++ out)%list
    /\ (model_calls events <= 2 * length keys)%nat
    /\ (tool_runs events <= length keys)%nat.
Proof.
  revert w. induction keys as [|k keys IH]; intros w.
  - exists [], ["You: "; nl +:+ "Exiting." +:+ nl]. cbn [repl].
    rewrite exit_run. cbn. rewrite app_nil_r. repeat split; lia.
  - destruct k as [l|].
    2:{ exists [], ["You: "; nl +:+ "Exiting." +:+ nl]. cbn [repl].
        rewrite exit_run. cbn. rewrite app_nil_r. repeat split; lia. }
    set (pw := mkWorld (env w) (log w) (stdout w ++ ["You: "])%list).
    assert (Hstep :
      repl R (Line l :: keys) w
      = (if is_quit (strip l) then print "Goodbye."
         else if is_empty (strip l) then repl R keys
         else (answer <- handle_user_message R (strip l) ;;
               print (nl +:+ "Assistant:" +:+ nl) ;;
               print (str R answer) ;;
               print (nl +:+ "---" +:+ nl) ;;
               repl R keys)%py) pw) by reflexivity.
    rewrite Hstep. clear Hstep.
    assert (Hpl : log pw = log w) by reflexivity.
    assert (Hpo : stdout pw = (stdout w ++ ["You: "])%list) by reflexivity.
    clearbody pw.
    destruct (is_quit (strip l)).
    { exists [], ["You: "; "Goodbye." +:+ nl]. unfold print, write.
      cbn. rewrite Hpl, Hpo, app_nil_r, <- app_assoc. repeat split; lia. }
    destruct (is_empty (strip l)).
    { destruct (IH pw) as (events & out & Hlog & Hout & Hm & Ht).
      exists events, ("You: " :: out). rewrite Hlog, Hout, Hpl, Hpo.
      rewrite <- app_assoc. cbn in *. repeat split; lia. }
    destruct (turn_run_shape (strip l) pw) as (ev & Hlog & Hshape & Hout).
    assert (Hev : (model_calls ev <= 2 /\ tool_runs ev <= 1)%nat)
      by (destruct Hshape; unfold model_calls, tool_runs; cbn; lia).
    destruct (handle_user_message R (strip l) pw) as [[answer|e] w1] eqn:Hh.
    + rewrite (bind_return _ _ _ _ _ Hh). cbn [snd] in Hlog, Hout.
      set (w2 := mkWorld (env w1) (log w1)
                   (stdout w1
                    ++ [(nl +:+ "Assistant:" +:+ nl) +:+ nl;
                        str R answer +:+ nl;
                        (nl +:+ "---" +:+ nl) +:+ nl])%list).
      assert (Hrun :
                 (print (nl +:+ "Assistant:" +:+ nl) ;;
                  print (str R answer) ;;
                  print (nl +:+ "---" +:+ nl) ;;
                  repl R keys)%py w1 = repl R keys w2).
      { unfold print, bind, write, w2. cbn. now rewrite <- !app_assoc. }
      rewrite Hrun.
      destruct (IH w2) as (events & out & Hlog2 & Hout2 & Hm & Ht).
      exists (ev ++ events)%list,
        ("You: " :: [(nl +:+ "Assistant:" +:+ nl) +:+ nl;
                     str R answer +:+ nl;
                     (nl +:+ "---" +:+ nl) +:+ nl] ++ out)%list.
      rewrite Hlog2, Hout2. unfold w2. cbn [log stdout].
      rewrite Hlog, Hout, Hpl, Hpo, model_calls_app, tool_runs_app.
      rewrite <- !app_assoc. cbn in *. repeat split; lia.
    + rewrite (bind_raise _ _ _ _ _ Hh). cbn [snd] in *.
      exists ev, ["You: "].
      rewrite Hlog, Hout, Hpl, Hpo. repeat split; cbn; lia.
Qed.

End Loop.

(** * The OSRM server: [map_servers/osrm_server.py]

    The three functions that the registry calls for routing.  What they
    do to the outside is one HTTP request each: [requests.get] with its
    [raise_for_status] and [json], an oracle on the state of the outside;
    the requests sent are kept beside that state. *)

Module Osrm.

(** Modelled from the spec: [ServerParams] is declared in
    [map_servers/base.py], which is not among the sources.  It is taken as
    the record of the keyword arguments that [osrm_server.py] builds
    [OSRM_PARAMS] from, read back as attributes. *)
Record ServerParams : Type := mkServerParams {
  name : string;
  base_url : string;
  description : string;
  commands : list (string * string);
}.

Definition OSRM_PARAMS : ServerParams :=
  mkServerParams "osrm_demo" "https://router.project-osrm.org"
    "OSRM public demo server for routing."
    [("route", "/route/v1"); ("nearest", "/nearest/v1")].

Definition _osrm_headers : list (string * string) :=
  [("User-Agent", "map-agents-assignment/1.0 (student-project)");
   ("Accept", "application/json")].

(** The arguments of [requests.get]. *)
Record request : Type := mkRequest {
  url : string;
  params : list (string * pyval);
  headers : list (string * string);
  timeout : Z;
}.

(** The outside, with the requests sent to it, oldest first. *)
Record net (S : Type) : Type := mkNet {
  outside_state : S;
  sent : list request;
}.
Arguments mkNet {S} outside_state sent.
Arguments outside_state {S} n.
Arguments sent {S} n.

Definition N (S A : Type) : Type := net S -> outcome A * net S.

Definition nret {S A} (a : A) : N S A := fun n => (Return a, n).

Definition nbind {S A B} (m : N S A) (k : A -> N S B) : N S B :=
  fun n =>
    match m n with
    | (Return a, n') => k a n'
    | (Raise e, n') => (Raise e, n')
    end.

(** A computation of the interpreter: a value or an exception, no effect. *)
Definition now {S A} (o : outcome A) : N S A := fun n => (o, n).

Declare Scope net_scope.
Delimit Scope net_scope with net.
Notation "x <- m ;; k" := (nbind m (fun x => k))
  (at level 100, m at next level, right associativity) : net_scope.

(** What the interpreter can object to in these functions, beside the
    faults of the agent. *)
Inductive server_fault : Type :=
| NoFirst (v : pyval)             (* [v[0]] *)
| BadDivision (v : pyval)         (* [v / 1000.0] *)
| IntTooLarge (n : Z)             (* an [int] beyond the range of [float] *)
| BadUnpack (v : pyval)           (* [a, b = v] *)
| BadFloat (v : pyval).           (* [float(v)] *)

Definition server_fault_class (f : server_fault) : exn_class :=
  match f with
  | NoFirst (PyList _) | NoFirst (PyStr _) => OtherException "IndexError"
  | NoFirst (PyDict _) => KeyError
  | NoFirst _ => TypeError
  | BadDivision _ => TypeError
  | IntTooLarge _ => OtherException "OverflowError"
  | BadUnpack (PyList _) | BadUnpack (PyStr _) | BadUnpack (PyDict _) =>
      OtherException "ValueError"
  | BadUnpack _ => TypeError
  | BadFloat _ => TypeError
  end.

(** The [float] nearest to an integer: binary64, ties to even. *)
Definition float_of_Z (n : Z) : spec_float := binary_normalize 53 1024 n 0 false.

Definition one_char (c : ascii) : pyval := PyStr (String c EmptyString).

Section Server.

Context (R : Runtime).

(** [requests.get(url, params=..., headers=..., timeout=...)], then
    [raise_for_status()] and [json()] on the response. *)
Context (http : request -> env_state R -> outcome pyval * env_state R).

(** The message of an exception of the interpreter, and [float(s)] for a
    string. *)
Context (server_text : server_fault -> string).
Context (float_of_str : string -> outcome spec_float).

Local Open Scope net_scope.
Local Abbreviation N := (N (env_state R)).

Definition fault_of {A} (f : fault) : outcome A :=
  Raise (mkExn (fault_class f) (fault_text R f)).

Definition fail {A} (f : server_fault) : outcome A :=
  Raise (mkExn (server_fault_class f) (server_text f)).

(** [v.get(k, dflt)] *)
Definition get (v : pyval) (k : string) (dflt : pyval) : outcome pyval :=
  match v with
  | PyDict d => Return (default dflt (Py.lookup k d))
  | _ => fault_of (NoAttribute v "get")
  end.

(** [v[k]] for a string [k] *)
Definition item (v : pyval) (k : string) : outcome pyval :=
  match v with
  | PyDict d =>
      match Py.lookup k d with
      | Some x => Return x
      | None => fault_of (NoSuchKey k)
      end
  | _ => fault_of (BadSubscript v k)
  end.

(** [v[0]] *)
Definition first (v : pyval) : outcome pyval :=
  match v with
  | PyList (x :: _) => Return x
  | PyStr (String c _) => Return (one_char c)
  | _ => fail (NoFirst v)
  end.

(** [float(n)] for an [int] *)
Definition float_of_int (n : Z) : outcome spec_float :=
  match float_of_Z n with
  | S754_infinity _ => fail (IntTooLarge n)
  | x => Return x
  end.

(** [v / c] for a [float] [c] that is not zero *)
Definition truediv (v : pyval) (c : spec_float) : outcome pyval :=
  match v with
  | PyFloat x => Return (PyFloat (SFdiv 53 1024 x c))
  | PyInt n =>
      match float_of_int n with
      | Return x => Return (PyFloat (SFdiv 53 1024 x c))
      | Raise e => Raise e
      end
  | PyBool b =>
      Return (PyFloat (SFdiv 53 1024 (float_of_Z (if b then 1 else 0)) c))
  | _ => fail (BadDivision v)
  end.

(** [float(v)] *)
Definition py_float (v : pyval) : outcome pyval :=
  match v with
  | PyFloat x => Return (PyFloat x)
  | PyInt n => outcome_map PyFloat (float_of_int n)
  | PyBool b => Return (PyFloat (float_of_Z (if b then 1 else 0)))
  | PyStr s => outcome_map PyFloat (float_of_str s)
  | _ => fail (BadFloat v)
  end.

(** [a, b = v] *)
Definition unpack2 (v : pyval) : outcome (pyval * pyval) :=
  match v with
  | PyList [a; b] => Return (a, b)
  | PyStr (String a (String b EmptyString)) => Return (one_char a, one_char b)
  | PyDict [(a, _); (b, _)] => Return (PyStr a, PyStr b)
  | _ => fail (BadUnpack v)
  end.

(** [OSRM_PARAMS.commands[k]] *)
Definition command (k : string) : outcome string :=
  match List.find (fun c => String.eqb k (fst c)) (commands OSRM_PARAMS) with
  | Some c => Return (snd c)
  | None => fault_of (NoSuchKey k)
  end.

Definition send (req : request) : N pyval :=
  fun n =>
    let (r, s) := http req (outside_state n) in
    (r, mkNet s (sent n ++ [req])).

Definition _format_coords (start_lat start_lon end_lat end_lon : pyval)
  : string :=
  str R start_lon +:+ "," +:+ str R start_lat +:+ ";" +:+
  str R end_lon +:+ "," +:+ str R end_lat.

Definition route_params : list (string * pyval) :=
  [("overview", PyStr "simplified"); ("geometries", PyStr "geojson");
   ("steps", PyStr "true"); ("alternatives", PyStr "false")].

Definition _request_route (profile coords : string) : N pyval :=
  path <- now (command "route") ;;
  let url :=
    base_url OSRM_PARAMS +:+ path +:+ "/" +:+ profile +:+ "/" +:+ coords in
  send (mkRequest url route_params _osrm_headers 10).

Definition osrm_route_driving_impl
    (start_lat start_lon end_lat end_lon : pyval) : N pyval :=
  let coords := _format_coords start_lat start_lon end_lat end_lon in
  data <- _request_route "driving" coords ;;
  routes <- now (get data "routes" PyNone) ;;
  if negb (Py.truthy routes)
  then now (Raise (mkExn RuntimeError
                     ("OSRM returned no routes: " +:+ str R data)))
  else
    routes <- now (item data "routes") ;;
    route <- now (first routes) ;;
    distance <- now (item route "distance") ;;
    distance_km <- now (truediv distance (float_of_Z 1000)) ;;
    duration <- now (item route "duration") ;;
    duration_min <- now (truediv duration (float_of_Z 60)) ;;
    summary <- now (get route "summary" (PyStr "")) ;;
    geometry <- now (get route "geometry" PyNone) ;;
    nret (PyDict [("distance_km", distance_km);
                  ("duration_min", duration_min);
                  ("summary", summary);
                  ("geometry", geometry)]).

Definition osrm_route_cycling_impl
    (start_lat start_lon end_lat end_lon : pyval) : N pyval :=
  let coords := _format_coords start_lat start_lon end_lat end_lon in
  let profile := "bike" in
  data <- _request_route profile coords ;;
  routes <- now (get data "routes" PyNone) ;;
  if negb (Py.truthy routes)
  then now (Raise (mkExn RuntimeError
                     ("OSRM returned no routes for cycling: " +:+ str R data)))
  else
    routes <- now (item data "routes") ;;
    route <- now (first routes) ;;
    distance <- now (item route "distance") ;;
    distance_km <- now (truediv distance (float_of_Z 1000)) ;;
    duration <- now (item route "duration") ;;
    duration_min <- now (truediv duration (float_of_Z 60)) ;;
    summary <- now (get route "summary" (PyStr "")) ;;
    geometry <- now (get route "geometry" PyNone) ;;
    nret (PyDict [("distance_km", distance_km);
                  ("duration_min", duration_min);
                  ("summary", summary);
                  ("geometry", geometry)]).

Definition osrm_nearest_road_impl (lat lon profile : pyval) : N pyval :=
  path <- now (command "nearest") ;;
  let url :=
    base_url OSRM_PARAMS +:+ path +:+ "/" +:+ str R profile +:+ "/" +:+
    str R lon +:+ "," +:+ str R lat in
  data <- send (mkRequest url [("number", PyInt 1)] _osrm_headers 10) ;;
  waypoints <- now (get data "waypoints" PyNone) ;;
  if negb (Py.truthy waypoints)
  then now (Raise (mkExn RuntimeError
                     ("OSRM returned no waypoints: " +:+ str R data)))
  else
    waypoints <- now (item data "waypoints") ;;
    wp <- now (first waypoints) ;;
    location <- now (item wp "location") ;;
    pair <- now (unpack2 location) ;;
    let (snapped_lon, snapped_lat) := pair : pyval * pyval in
    distance_m <- now (get wp "distance" PyNone) ;;
    lat_f <- now (py_float snapped_lat) ;;
    lon_f <- now (py_float snapped_lon) ;;
    distance_f <- now (match distance_m with
                       | PyNone => Return PyNone
                       | _ => py_float distance_m
                       end) ;;
    nret (PyDict [("snapped_lat", lat_f);
                  ("snapped_lon", lon_f);
                  ("distance_m", distance_f)]).

(** The value of the parameter [p] among the bound parameters. *)
Definition arg (bound : list (string * pyval)) (p : string) : pyval :=
  default PyNone (Py.lookup p bound).

(** The bodies of the functions of the registry, by name: the three of
    this file, and those of the runtime [R] for the others. *)
Definition body (fn : string) (bound : list (string * pyval)) : N pyval :=
  if String.eqb fn "osrm_route_driving_impl" then
    osrm_route_driving_impl (arg bound "start_lat") (arg bound "start_lon")
      (arg bound "end_lat") (arg bound "end_lon")
  else if String.eqb fn "osrm_route_cycling_impl" then
    osrm_route_cycling_impl (arg bound "start_lat") (arg bound "start_lon")
      (arg bound "end_lat") (arg bound "end_lon")
  else if String.eqb fn "osrm_nearest_road_impl" then
    osrm_nearest_road_impl (arg bound "lat") (arg bound "lon")
      (arg bound "profile")
  else
    fun n =>
      let (r, s) := tool_body R fn bound (outside_state n) in
      (r, mkNet s (sent n)).

(** The runtime [R] with the OSRM tools of this file for bodies, on an
    outside that records the requests sent. *)
Definition with_osrm : Runtime :=
  {| env_state := net (env_state R);
     chat_completion := fun model messages max_tokens n =>
       let (r, s) :=
         chat_completion R model messages max_tokens (outside_state n) in
       (r, mkNet s (sent n));
     json_loads := json_loads R;
     json_dumps_indent2 := json_dumps_indent2 R;
     repr := repr R;
     fault_text := fault_text R;
     tool_body := body |}.

End Server.

End Osrm.

(** ** The requests of the OSRM functions, and their results *)

Section OsrmFacts.

Import Osrm.

Context (R : Runtime).
Context (http : Osrm.request -> env_state R -> outcome pyval * env_state R).
Context (server_text : Osrm.server_fault -> string).
Context (float_of_str : string -> outcome spec_float).

Local Abbreviation driving :=
  (Osrm.osrm_route_driving_impl R http server_text).
Local Abbreviation cycling :=
  (Osrm.osrm_route_cycling_impl R http server_text).
Local Abbreviation nearest :=
  (Osrm.osrm_nearest_road_impl R http server_text float_of_str).

(** The request of a route between two points, for a profile. *)
Definition route_request (profile : string)
    (start_lat start_lon end_lat end_lon : pyval) : Osrm.request :=
  Osrm.mkRequest
    ("https://router.project-osrm.org/route/v1/" +:+ profile +:+ "/" +:+
     str R start_lon +:+ "," +:+ str R start_lat +:+ ";" +:+
     str R end_lon +:+ "," +:+ str R end_lat)
    Osrm.route_params Osrm._osrm_headers 10.

(** The request of the road nearest to a point. *)
Definition nearest_request (lat lon profile : pyval) : Osrm.request :=
  Osrm.mkRequest
    ("https://router.project-osrm.org/nearest/v1/" +:+ str R profile +:+
     "/" +:+ str R lon +:+ "," +:+ str R lat)
    [("number", PyInt 1)] Osrm._osrm_headers 10.

(** The world once [req] has been sent and the outside has moved to [s]. *)
Definition received (n : Osrm.net (env_state R)) (req : Osrm.request)
    (s : env_state R) : Osrm.net (env_state R) :=
  Osrm.mkNet s (Osrm.sent n ++ [req]).

(** A computation that leaves the outside alone. *)
Definition quiet {A} (m : Osrm.N (env_state R) A) : Prop :=
  forall n, snd (m n) = n.

Lemma quiet_now {A} (o : outcome A) : quiet (Osrm.now o).
Proof. now intros n. Qed.

Lemma quiet_nret {A} (a : A) : quiet (Osrm.nret a).
Proof. now intros n. Qed.

Lemma quiet_nbind {A B} (m : Osrm.N (env_state R) A)
    (k : A -> Osrm.N (env_state R) B) :
  quiet m -> (forall a, quiet (k a)) -> quiet (Osrm.nbind m k).
Proof.
  intros Hm Hk n. unfold Osrm.nbind. specialize (Hm n).
  destruct (m n) as [[a|e] n']; simpl in Hm; subst n'; [apply Hk|reflexivity].
Qed.

Lemma quiet_if {A} (b : bool) (m1 m2 : Osrm.N (env_state R) A) :
  quiet m1 -> quiet m2 -> quiet (if b then m1 else m2).
Proof. now destruct b. Qed.


(** Sending and then computing on the response: the outside is as the
    request left it. *)
Lemma send_then_quiet {A} req (k : pyval -> Osrm.N (env_state R) A) n :
  (forall data, quiet (k data)) ->
  snd (Osrm.nbind (Osrm.send R http req) k n)
  = received n req (snd (http req (Osrm.outside_state n))).
Proof.
  intros Hk. unfold Osrm.nbind, Osrm.send, received.
  destruct (http req (Osrm.outside_state n)) as [[data|e] s];
    [apply Hk|reflexivity].
Qed.

Lemma request_route_run profile a b c d n :
  Osrm._request_route R http profile (Osrm._format_coords R a b c d) n
  = (fst (http (route_request profile a b c d) (Osrm.outside_state n)),
     received n (route_request profile a b c d)
       (snd (http (route_request profile a b c d) (Osrm.outside_state n)))).
Proof.
  unfold Osrm._request_route, Osrm.nbind, Osrm.now, Osrm.send, received.
  change (Osrm.command R "route") with (@Return string "/route/v1").
  cbv beta iota.
  change (Osrm.mkRequest _ Osrm.route_params Osrm._osrm_headers 10)
    with (route_request profile a b c d).
  now destruct (http (route_request profile a b c d) (Osrm.outside_state n)).
Qed.

Lemma nearest_run a b c n :
  nearest a b c n
  = Osrm.nbind (Osrm.send R http (nearest_request a b c))
      (fun data =>
         Osrm.nbind (Osrm.now (Osrm.get R data "waypoints" PyNone))
           (fun waypoints =>
              if negb (Py.truthy waypoints)
              then Osrm.now
                     (Raise (mkExn RuntimeError
                               ("OSRM returned no waypoints: " +:+
                                str R data)))
              else
                (waypoints <- Osrm.now (Osrm.item R data "waypoints") ;;
                 wp <- Osrm.now (Osrm.first server_text waypoints) ;;
                 location <- Osrm.now (Osrm.item R wp "location") ;;
                 pair <- Osrm.now (Osrm.unpack2 server_text location) ;;
                 let (snapped_lon, snapped_lat) := pair : pyval * pyval in
                 distance_m <- Osrm.now (Osrm.get R wp "distance" PyNone) ;;
                 lat_f <- Osrm.now
                            (Osrm.py_float server_text float_of_str
                               snapped_lat) ;;
                 lon_f <- Osrm.now
                            (Osrm.py_float server_text float_of_str
                               snapped_lon) ;;
                 distance_f <- Osrm.now
                                 (match distance_m with
                                  | PyNone => Return PyNone
                                  | _ => Osrm.py_float server_text
                                           float_of_str distance_m
                                  end) ;;
                 Osrm.nret (PyDict [("snapped_lat", lat_f);
                                    ("snapped_lon", lon_f);
                                    ("distance_m", distance_f)]))%net)) n.
Proof. reflexivity. Qed.

Lemma after_request {A} (m : Osrm.N (env_state R) pyval)
    (k : pyval -> Osrm.N (env_state R) A) n r n' :
  m n = (r, n') -> (forall data, quiet (k data)) ->
  snd (Osrm.nbind m k n) = n'.
Proof.
  intros Hm Hk. unfold Osrm.nbind. rewrite Hm.
  destruct r; [apply Hk|reflexivity].
Qed.


(** A computation with one outcome, that leaves the outside alone. *)
Definition steady {A} (m : N (env_state R) A) : Prop :=
  exists o, forall n, m n = (o, n).

Lemma steady_now {A} (o : outcome A) : steady (now o).
Proof. now exists o. Qed.

Lemma steady_nret {A} (a : A) : steady (nret a).
Proof. now exists (Return a). Qed.

Lemma steady_nbind {A B} (m : N (env_state R) A)
    (k : A -> N (env_state R) B) :
  steady m -> (forall a, steady (k a)) -> steady (nbind m k).
Proof.
  intros [[a|e] Hm] Hk.
  - destruct (Hk a) as [o Ho]. exists o. intros n. unfold nbind.
    now rewrite Hm.
  - exists (Raise e). intros n. unfold nbind. now rewrite Hm.
Qed.

Lemma steady_if {A} (b : bool) (m1 m2 : N (env_state R) A) :
  steady m1 -> steady m2 -> steady (if b then m1 else m2).
Proof. now destruct b. Qed.

Ltac steady_steps :=
  repeat first
    [ apply steady_now | apply steady_nret | apply steady_if
    | apply steady_nbind; [|intros ?]
    | match goal with |- steady (let (_, _) := ?p in _) => destruct p end ].

Lemma steady_fst {A} (m : N (env_state R) A) n1 n2 :
  steady m -> fst (m n1) = fst (m n2).
Proof. intros [o Ho]. now rewrite !Ho. Qed.

Lemma driving_run a b c d n data s :
  http (route_request "driving" a b c d) (outside_state n) = (Return data, s) ->
  driving a b c d n
  = (routes <- now (get R data "routes" PyNone) ;;
     if negb (Py.truthy routes)
     then now (Raise (mkExn RuntimeError
                        ("OSRM returned no routes: " +:+ str R data)))
     else
       routes <- now (item R data "routes") ;;
       route <- now (first server_text routes) ;;
       distance <- now (item R route "distance") ;;
       distance_km <- now (truediv server_text distance (float_of_Z 1000)) ;;
       duration <- now (item R route "duration") ;;
       duration_min <- now (truediv server_text duration (float_of_Z 60)) ;;
       summary <- now (get R route "summary" (PyStr "")) ;;
       geometry <- now (get R route "geometry" PyNone) ;;
       nret (PyDict [("distance_km", distance_km);
                     ("duration_min", duration_min);
                     ("summary", summary);
                     ("geometry", geometry)]))%net
      (received n (route_request "driving" a b c d) s).
Proof.
  intros Hhttp. unfold osrm_route_driving_impl. unfold nbind at 1.
  now rewrite request_route_run, Hhttp.
Qed.

Lemma cycling_run a b c d n data s :
  http (route_request "bike" a b c d) (outside_state n) = (Return data, s) ->
  cycling a b c d n
  = (routes <- now (get R data "routes" PyNone) ;;
     if negb (Py.truthy routes)
     then now (Raise (mkExn RuntimeError
                        ("OSRM returned no routes for cycling: " +:+
                         str R data)))
     else
       routes <- now (item R data "routes") ;;
       route <- now (first server_text routes) ;;
       distance <- now (item R route "distance") ;;
       distance_km <- now (truediv server_text distance (float_of_Z 1000)) ;;
       duration <- now (item R route "duration") ;;
       duration_min <- now (truediv server_text duration (float_of_Z 60)) ;;
       summary <- now (get R route "summary" (PyStr "")) ;;
       geometry <- now (get R route "geometry" PyNone) ;;
       nret (PyDict [("distance_km", distance_km);
                     ("duration_min", duration_min);
                     ("summary", summary);
                     ("geometry", geometry)]))%net
      (received n (route_request "bike" a b c d) s).
Proof.
  intros Hhttp. unfold osrm_route_cycling_impl. unfold nbind at 1.
  now rewrite request_route_run, Hhttp.
Qed.

(** X17.  When the route service answers with an object that has no
    routes (no ["routes"] key, or null, or an empty list), the driving
    function raises the [RuntimeError] whose message prints the answer; the
    one request has been sent. *)
Theorem no_routes_is_an_error a b c d n data s :
  http (route_request "driving" a b c d) (outside_state n)
  = (Return (PyDict data), s) ->
  Py.truthy (default PyNone (Py.lookup "routes" data)) = false ->
  driving a b c d n
  = (Raise (mkExn RuntimeError
              ("OSRM returned no routes: " +:+ repr R (PyDict data))),
     received n (route_request "driving" a b c d) s).
Proof.
  intros Hhttp Hfalsy. rewrite (driving_run _ _ _ _ _ _ _ Hhttp).
  unfold nbind, now, get. now rewrite Hfalsy.
Qed.

(** X18.  When the answer has routes, the result is made from the first
    one alone: its distance over 1000 and its duration over 60, its summary
    or the empty string, its geometry or [None], under four keys in this
    order; the other routes and the other fields are left out. *)
Theorem route_result_is_the_first_route
    a b c d n data s route others dv tv km mins :
  http (route_request "driving" a b c d) (outside_state n)
  = (Return (PyDict data), s) ->
  Py.lookup "routes" data = Some (PyList (PyDict route :: others)) ->
  Py.lookup "distance" route = Some dv ->
  Py.lookup "duration" route = Some tv ->
  truediv server_text dv (float_of_Z 1000) = Return km ->
  truediv server_text tv (float_of_Z 60) = Return mins ->
  driving a b c d n
  = (Return (PyDict
               [("distance_km", km);
                ("duration_min", mins);
                ("summary", default (PyStr "") (Py.lookup "summary" route));
                ("geometry", default PyNone (Py.lookup "geometry" route))]),
     received n (route_request "driving" a b c d) s).
Proof.
  intros Hhttp Hroutes Hd Ht Hkm Hmin.
  rewrite (driving_run _ _ _ _ _ _ _ Hhttp).
  unfold nbind, now, nret, get, item, first.
  rewrite Hroutes. cbn [default Py.truthy negb]. rewrite Hd, Hkm, Ht, Hmin.
  reflexivity.
Qed.

Lemma skip_check {A} (v : pyval) (e k : N (env_state R) A) n :
  Py.truthy v = true ->
  (routes <- now (Return v) ;;
   if negb (Py.truthy routes) then e else k)%net n = k n.
Proof. intros H. unfold nbind, now. now rewrite H. Qed.

(** X19.  The cycling function differs from the driving one in its
    profile and in the message for an answer without routes, and in
    nothing else: on the same answer, if it has routes or is no object at
    all, both return the same result or raise the same exception. *)
Theorem cycling_computes_as_driving a b c d n data s1 s2 :
  http (route_request "driving" a b c d) (outside_state n) = (Return data, s1) ->
  http (route_request "bike" a b c d) (outside_state n) = (Return data, s2) ->
  (forall o, data = PyDict o ->
             Py.truthy (default PyNone (Py.lookup "routes" o)) = true) ->
  fst (cycling a b c d n) = fst (driving a b c d n).
Proof.
  intros Hd Hc Hroutes.
  rewrite (driving_run _ _ _ _ _ _ _ Hd), (cycling_run _ _ _ _ _ _ _ Hc).
  destruct data as [| | | | | | o];
    try (unfold nbind, now, get; reflexivity).
  specialize (Hroutes o eq_refl).
  change (get R (PyDict o) "routes" PyNone)
    with (Return (default PyNone (Py.lookup "routes" o))).
  rewrite !skip_check by exact Hroutes.
  apply steady_fst. steady_steps.
Qed.

(** X20.  The nearest-road function reads the location of the first
    waypoint as longitude then latitude and returns them under
    [snapped_lat] and [snapped_lon], each through [float].  Under
    [distance_m] it returns [float] of the distance of the waypoint, and
    [None] when the waypoint has no distance or a null one. *)
Theorem nearest_reads_lon_then_lat
    a b c n data s wp others lon lat lat_f lon_f dist_f :
  http (nearest_request a b c) (outside_state n) = (Return (PyDict data), s) ->
  Py.lookup "waypoints" data = Some (PyList (PyDict wp :: others)) ->
  Py.lookup "location" wp = Some (PyList [lon; lat]) ->
  py_float server_text float_of_str lat = Return lat_f ->
  py_float server_text float_of_str lon = Return lon_f ->
  (default PyNone (Py.lookup "distance" wp) = PyNone /\ dist_f = PyNone)
  \/ (default PyNone (Py.lookup "distance" wp) <> PyNone
      /\ py_float server_text float_of_str
           (default PyNone (Py.lookup "distance" wp)) = Return dist_f) ->
  nearest a b c n
  = (Return (PyDict [("snapped_lat", lat_f);
                     ("snapped_lon", lon_f);
                     ("distance_m", dist_f)]),
     received n (nearest_request a b c) s).
Proof.
  intros Hhttp Hwp Hloc Hlat Hlon Hdist. rewrite nearest_run.
  unfold nbind at 1. unfold send. rewrite Hhttp.
  unfold nbind, now, nret, get, item, first, unpack2.
  rewrite Hwp. cbn [default Py.truthy negb]. rewrite Hloc, Hlat, Hlon.
  destruct Hdist as [[Hnone ->]|[Hsome Hfloat]].
  - now rewrite Hnone.
  - destruct (default PyNone (Py.lookup "distance" wp)) eqn:E;
      try contradiction; now rewrite Hfloat.
Qed.

End OsrmFacts.

(** ** The agent on the OSRM functions *)

Section Linked.

Context (R : Runtime).
Context (http : Osrm.request -> env_state R -> outcome pyval * env_state R).
Context (server_text : Osrm.server_fault -> string).
Context (float_of_str : string -> outcome spec_float).

Import PyString.

(** The runtime of the agent, with the OSRM functions for bodies. *)
Definition linked : Runtime := Osrm.with_osrm R http server_text float_of_str.

Lemma chat_keeps_sent model messages max_tokens (n : env_state linked) :
  Osrm.sent (snd (chat_completion linked model messages max_tokens n))
  = Osrm.sent n.
Proof.
  cbn. now destruct (chat_completion R model messages max_tokens
                       (Osrm.outside_state n)).
Qed.

(** A body of the registry sends one request, or none that is recorded. *)
Lemma body_sends_at_most_one fn bound (n : env_state linked) :
  exists reqs,
    Osrm.sent (snd (tool_body linked fn bound n)) = (Osrm.sent n ++ reqs)%list
    /\ (length reqs <= 1)%nat.
Proof.
  unfold linked in *. cbn [tool_body env_state Osrm.with_osrm] in *.
  unfold Osrm.body.
  destruct (String.eqb fn "osrm_route_driving_impl").
  { eexists. split.
    - unfold Osrm.osrm_route_driving_impl.
      erewrite (after_request R); cycle 1.
      { apply request_route_run. }
      { intros data.
        repeat first
          [ apply quiet_now | apply quiet_nret | apply quiet_if
          | apply quiet_nbind; [|intros ?] ]. }
      reflexivity.
    - apply Nat.le_refl. }
  destruct (String.eqb fn "osrm_route_cycling_impl").
  { eexists. split.
    - unfold Osrm.osrm_route_cycling_impl.
      erewrite (after_request R); cycle 1.
      { apply request_route_run. }
      { intros data.
        repeat first
          [ apply quiet_now | apply quiet_nret | apply quiet_if
          | apply quiet_nbind; [|intros ?] ]. }
      reflexivity.
    - apply Nat.le_refl. }
  destruct (String.eqb fn "osrm_nearest_road_impl").
  { eexists. split.
    - rewrite nearest_run, send_then_quiet; [reflexivity|].
      intros data.
      repeat first
        [ apply quiet_now | apply quiet_nret | apply quiet_if
        | apply quiet_nbind; [|intros ?]
        | match goal with
          | |- quiet _ (let (_, _) := ?p in _) => destruct p
          end ].
    - apply Nat.le_refl. }
  exists []. split; [|apply Nat.le_0_l].
  destruct (tool_body R fn bound (Osrm.outside_state n)). cbn.
  now rewrite app_nil_r.
Qed.

(** X21.  A turn sends at most one request to OSRM, whatever the model
    replies and the service answers, and takes none back. *)
Theorem turn_sends_at_most_one_request user_message (w : World linked) :
  exists reqs,
    Osrm.sent (env (snd (handle_user_message linked user_message w)))
    = (Osrm.sent (env w) ++ reqs)%list
    /\ (length reqs <= 1)%nat.
Proof.
  rewrite handle_user_message_dispatch.
  pose proof (chat_keeps_sent MODEL_ID (decision_messages linked user_message)
                512 (env w)) as Hkeep.
  destruct (chat_completion linked MODEL_ID
              (decision_messages linked user_message) 512 (env w))
    as [[raw|e] s] eqn:Hchat; cbn [snd] in Hkeep.
  2:{ rewrite (bind_raise _ _ _ _ _ (decision_failed _ _ _ _ Hchat)).
      exists []. cbn. rewrite Hkeep, app_nil_r. split; [reflexivity|lia]. }
  pose proof (decision_run _ _ _ _ Hchat) as Hask.
  destruct (decision_of linked raw) as [v|e].
  2:{ rewrite (bind_raise _ _ _ _ _ Hask).
      exists []. cbn. rewrite Hkeep, app_nil_r. split; [reflexivity|lia]. }
  rewrite (bind_return _ _ _ _ _ Hask).
  destruct (dispatch_cases (R := linked) user_message v)
    as [(r & H)|[(f & A & r & H)|(T & f & A & bound & H)]]; rewrite H.
  - exists []. cbn. rewrite Hkeep, app_nil_r. split; [reflexivity|lia].
  - exists []. cbn. rewrite Hkeep, app_nil_r. split; [reflexivity|lia].
  - unfold run_tool. cbn [env after].
    destruct (body_sends_at_most_one (fun_name f) bound s)
      as (reqs & Hsent & Hlen).
    destruct (tool_body linked (fun_name f) bound s) as [[result|e] s'];
      cbn [snd] in Hsent.
    + pose proof (chat_keeps_sent MODEL_ID
                    (explain_messages linked user_message T (PyDict A) result)
                    512 s') as Hkeep'.
      destruct (chat_completion linked MODEL_ID
                  (explain_messages linked user_message T (PyDict A) result)
                  512 s') as [x y] eqn:Hex; cbn [snd] in Hkeep'.
      rewrite after_after. erewrite explain_run by exact Hex.
      exists reqs. cbn. now rewrite Hkeep', Hsent, Hkeep.
    + exists reqs. cbn. now rewrite Hsent, Hkeep.
Qed.

(** The parameters of the driving function, once bound. *)
Definition driving_request (bound : list (string * pyval)) : Osrm.request :=
  route_request R "driving"
    (Osrm.arg bound "start_lat") (Osrm.arg bound "start_lon")
    (Osrm.arg bound "end_lat") (Osrm.arg bound "end_lon").

(** X22.  A route that the service does not find, told to the user: when
    the decision asks for [osrm_route_driving] with keywords that bind, and
    the service answers with an object without routes, the turn returns
    the failure text of the tool with the message of the function and the
    answer of the service; one request was sent, and no explanation asked
    for. *)
Theorem no_route_is_told_to_the_user
    user_message (w : World linked) raw s d A bound data s' :
  model_replies w user_message raw s ->
  json_loads linked (strip raw) = Return (PyDict d) ->
  Py.lookup "tool" d = Some (PyStr "osrm_route_driving") ->
  Py.lookup "args" d = Some (PyDict A) ->
  Call.bind_kwargs MapServers.osrm_route_driving_impl A = inr bound ->
  http (driving_request bound) (Osrm.outside_state s)
  = (Return (PyDict data), s') ->
  Py.truthy (default PyNone (Py.lookup "routes" data)) = false ->
  handle_user_message linked user_message w
  = (Return (PyStr ("Tool 'osrm_route_driving' failed with an exception: "
                    +:+ "OSRM returned no routes: "
                    +:+ repr R (PyDict data))),
     after w (received R s (driving_request bound) s')
       [EvChat (decision_messages linked user_message) 512;
        EvCall "osrm_route_driving_impl" A;
        EvBody "osrm_route_driving_impl" bound]).
Proof.
  intros Hchat Hjson Ht Ha Hb Hhttp Hfalsy.
  assert (Hbody :
    tool_body linked (fun_name MapServers.osrm_route_driving_impl) bound s
    = (Raise (mkExn RuntimeError
                ("OSRM returned no routes: " +:+ repr R (PyDict data))),
       received R s (driving_request bound) s')).
  { change (tool_body linked
              (fun_name MapServers.osrm_route_driving_impl) bound s)
      with (Osrm.osrm_route_driving_impl R http server_text
              (Osrm.arg bound "start_lat") (Osrm.arg bound "start_lon")
              (Osrm.arg bound "end_lat") (Osrm.arg bound "end_lon") s).
    rewrite (driving_run _ _ _ _ _ _ _ _ _ _ Hhttp).
    unfold Osrm.nbind, Osrm.now, Osrm.get. now rewrite Hfalsy. }
  rewrite (raising_tool_turn _ _ _ _ _ _ _ _ _ _ _
             Hchat Hjson Ht Ha eq_refl Hb Hbody).
  reflexivity.
Qed.

(** After the body of the tool, the turn sends nothing. *)
Lemma sent_after_tool user_message (w : World linked) raw s d T A f bound :
  model_replies w user_message raw s ->
  json_loads linked (strip raw) = Return (PyDict d) ->
  Py.lookup "tool" d = Some (PyStr T) ->
  Py.lookup "args" d = Some (PyDict A) ->
  TOOL_FUNCTIONS !! T = Some f ->
  Call.bind_kwargs f A = inr bound ->
  Osrm.sent (env (snd (handle_user_message linked user_message w)))
  = Osrm.sent (snd (tool_body linked (fun_name f) bound s)).
Proof.
  intros Hchat Hjson Ht Ha Hf Hb.
  rewrite (bound_tool_turn _ _ _ _ _ _ _ _ _ Hchat Hjson Ht Ha Hf Hb).
  unfold run_tool. cbn [env after].
  destruct (tool_body linked (fun_name f) bound s) as [[result|e] s'];
    [|reflexivity].
  pose proof (chat_keeps_sent MODEL_ID
                (explain_messages linked user_message T (PyDict A) result)
                512 s') as Hkeep.
  destruct (chat_completion linked MODEL_ID
              (explain_messages linked user_message T (PyDict A) result)
              512 s') as [x y] eqn:Hex; cbn [snd] in Hkeep.
  rewrite after_after. erewrite explain_run by exact Hex.
  cbn. exact Hkeep.
Qed.

Lemma nearest_bound A bound lat lon :
  Call.bind_kwargs MapServers.osrm_nearest_road_impl A = inr bound ->
  Py.lookup "lat" A = Some lat ->
  Py.lookup "lon" A = Some lon ->
  Py.lookup "profile" A = None ->
  bound = [("lat", lat); ("lon", lon); ("profile", PyStr "driving")].
Proof.
  intros Hb Hlat Hlon Hprof. apply bind_kwargs_bound in Hb as (_ & _ & ->).
  unfold MapServers.osrm_nearest_road_impl, required, optional,
    Call.bound_value.
  cbn [List.map fun_params param_name param_default].
  now rewrite Hlat, Hlon, Hprof.
Qed.

(** X23.  The profile of the nearest-road tool defaults to [driving]: when
    the decision gives [lat] and [lon] and no [profile], the one request of
    the turn goes to the nearest service for the profile [driving], at
    longitude then latitude. *)
Theorem nearest_road_defaults_to_driving
    user_message (w : World linked) raw s d A bound lat lon :
  model_replies w user_message raw s ->
  json_loads linked (strip raw) = Return (PyDict d) ->
  Py.lookup "tool" d = Some (PyStr "osrm_nearest_road") ->
  Py.lookup "args" d = Some (PyDict A) ->
  Call.bind_kwargs MapServers.osrm_nearest_road_impl A = inr bound ->
  Py.lookup "lat" A = Some lat ->
  Py.lookup "lon" A = Some lon ->
  Py.lookup "profile" A = None ->
  Osrm.sent (env (snd (handle_user_message linked user_message w)))
  = (Osrm.sent (env w) ++ [nearest_request R lat lon (PyStr "driving")])%list.
Proof.
  intros Hchat Hjson Ht Ha Hb Hlat Hlon Hprof.
  rewrite (sent_after_tool _ _ _ _ _ "osrm_nearest_road" _
             MapServers.osrm_nearest_road_impl _
             Hchat Hjson Ht Ha eq_refl Hb).
  rewrite (nearest_bound _ _ _ _ Hb Hlat Hlon Hprof).
  pose proof (chat_keeps_sent MODEL_ID (decision_messages linked user_message)
                512 (env w)) as Hkeep.
  unfold model_replies in Hchat. rewrite Hchat in Hkeep. cbn [snd] in Hkeep.
  rewrite <- Hkeep.
  change (tool_body linked (fun_name MapServers.osrm_nearest_road_impl)
            [("lat", lat); ("lon", lon); ("profile", PyStr "driving")] s)
    with (Osrm.osrm_nearest_road_impl R http server_text float_of_str
            lat lon (PyStr "driving") s).
  unfold linked in *. cbn [env_state Osrm.with_osrm] in *.
  rewrite nearest_run, send_then_quiet; [reflexivity|].
  intros data.
  repeat first
    [ apply quiet_now | apply quiet_nret | apply quiet_if
    | apply quiet_nbind; [|intros ?]
    | match goal with
      | |- quiet _ (let (_, _) := ?p in _) => destruct p
      end ].
Qed.

End Linked.

(** ** More runs of the sample runtime *)

Module Sample2.

Import PyString Sample.

Definition no_args_text : string :=
  "{" +:+ q "tool" +:+ ": " +:+ q "osrm_route_driving" +:+ "}".

Definition list_args_text : string :=
  "{" +:+ q "tool" +:+ ": " +:+ q "osrm_route_driving" +:+ ", " +:+
  q "args" +:+ ": [52, 13, 53, 14]}".

Definition number_answer_text : string :=
  "{" +:+ q "answer" +:+ ": 42}".

(** An array nested five thousand deep, beyond what the parser recurses. *)
Definition deep_text : string :=
  String.concat "" (repeat "[" 5000) +:+ String.concat "" (repeat "]" 5000).

Definition too_deep : exn :=
  mkExn (OtherException "RecursionError")
    "maximum recursion depth exceeded while decoding a JSON array from a unicode string".

(** The table of [json.loads] on the texts of these examples; the other
    texts are looked up in the table of the first examples. *)
Definition more_loads (text : string) : outcome pyval :=
  if String.eqb text no_args_text then
    Return (PyDict [("tool", PyStr "osrm_route_driving")])
  else if String.eqb text list_args_text then
    Return (PyDict [("tool", PyStr "osrm_route_driving");
                    ("args", PyList [PyInt 52; PyInt 13; PyInt 53; PyInt 14])])
  else if String.eqb text number_answer_text then
    Return (PyDict [("answer", PyInt 42)])
  else if String.eqb text deep_text then Raise too_deep
  else Sample.loads text.

Definition more_runtime
    (tools : string -> list (string * pyval) -> outcome pyval) : Runtime :=
  {| env_state := state;
     chat_completion := chat;
     json_loads := more_loads;
     json_dumps_indent2 := dumps 0;
     repr := py_repr;
     fault_text := text_of_fault;
     tool_body := fun fn bound s =>
       (tools fn bound, mkState (script s) (S (map_requests s))) |}.

Definition more_demo : Runtime := more_runtime tools.

Definition world_at (R : Runtime) (s : env_state R) : World R :=
  @mkWorld R s [] [].

(** Tools whose body stumbles on a text where it wants a number, and
    tools that are interrupted from the keyboard. *)
Definition bad_operand : exn :=
  mkExn TypeError "unsupported operand type(s) for /: 'str' and 'float'".

Definition stumbling (fn : string) (bound : list (string * pyval))
  : outcome pyval := Raise bad_operand.

Definition interrupt : exn := mkExn KeyboardInterrupt "".

Definition interrupted (fn : string) (bound : list (string * pyval))
  : outcome pyval := Raise interrupt.

(** The values of [1000.0], [12.5] and so on: [m] times two to the [e]. *)
Definition dyadic (m e : Z) : spec_float := binary_normalize 53 1024 m e false.

(** A route service that finds no route, one that finds a route of
    12.5 km in a quarter of an hour, and a nearest service that snaps to a
    point of the Rue de Rivoli; each counts the requests it gets. *)
Definition no_route_answer : list (string * pyval) :=
  [("code", PyStr "NoRoute"); ("routes", PyList [])].

Definition the_route : list (string * pyval) :=
  [("geometry", PyDict [("type", PyStr "LineString")]);
   ("legs", PyList []);
   ("distance", PyInt 12500);
   ("duration", PyFloat (dyadic 900 0))].

Definition route_answer : list (string * pyval) :=
  [("code", PyStr "Ok"); ("routes", PyList [PyDict the_route])].

Definition the_waypoint : list (string * pyval) :=
  [("name", PyStr "Rue de Rivoli");
   ("location", PyList [PyFloat (dyadic 9 (-2)); PyFloat (dyadic 195 (-2))]);
   ("distance", PyInt 12)].

Definition nearest_answer : list (string * pyval) :=
  [("code", PyStr "Ok"); ("waypoints", PyList [PyDict the_waypoint])].

Definition counted (s : state) : state :=
  mkState (script s) (S (map_requests s)).

Definition no_route_service (req : Osrm.request) (s : state)
  : outcome pyval * state :=
  (Return (PyDict no_route_answer), counted s).

Definition service (req : Osrm.request) (s : state) : outcome pyval * state :=
  if contains "/nearest/" (Osrm.url req)
  then (Return (PyDict nearest_answer), counted s)
  else (Return (PyDict route_answer), counted s).

(** The number of items that iterating over [v] gives, if it can be
    iterated over. *)
Definition items_of (v : pyval) : option nat :=
  match v with
  | PyList l => Some (length l)
  | PyStr s => Some (String.length s)
  | PyDict d => Some (length d)
  | _ => None
  end.

(** The messages of CPython 3.12. *)
Definition sample_server_text (f : Osrm.server_fault) : string :=
  match f with
  | Osrm.NoFirst (PyList _) => "list index out of range"
  | Osrm.NoFirst (PyStr _) => "string index out of range"
  | Osrm.NoFirst (PyDict _) => "0"
  | Osrm.NoFirst v => sq (type_name v) +:+ " object is not subscriptable"
  | Osrm.BadDivision v =>
      "unsupported operand type(s) for /: " +:+ sq (type_name v) +:+
      " and 'float'"
  | Osrm.IntTooLarge _ => "int too large to convert to float"
  | Osrm.BadUnpack v =>
      match items_of v with
      | None => "cannot unpack non-iterable " +:+ type_name v +:+ " object"
      | Some n =>
          if (n <? 2)%nat
          then "not enough values to unpack (expected 2, got " +:+
               pretty (Z.of_nat n) +:+ ")"
          else "too many values to unpack (expected 2)"
      end
  | Osrm.BadFloat v =>
      "float() argument must be a string or a real number, not " +:+
      sq (type_name v)
  end.

(** [float] on the one string of the examples. *)
Definition sample_float_of_str (s : string) : outcome spec_float :=
  if String.eqb (strip s) "12.5" then Return (dyadic 25 (-1))
  else Raise (mkExn (OtherException "ValueError")
                ("could not convert string to float: '" +:+ s +:+ "'")).

(** The agent of the first examples on the OSRM functions. *)
Definition linked_demo (http : Osrm.request -> state -> outcome pyval * state)
  : Runtime :=
  linked Sample.demo http sample_server_text sample_float_of_str.

Definition net_of (replies : list (outcome string))
  : Osrm.net (env_state Sample.demo) :=
  Osrm.mkNet (mkState replies 0) [].

End Sample2.

Module Runs2.

Import PyString Sample Sample2.

Definition driving_decision : list (string * pyval) :=
  [("tool", PyStr "osrm_route_driving"); ("args", PyDict route_args)].

Definition nearest_decision : list (string * pyval) :=
  [("tool", PyStr "osrm_nearest_road"); ("args", PyDict nearest_args)].

Definition nearest_bound_args : list (string * pyval) :=
  [("lat", PyInt 48); ("lon", PyInt 2); ("profile", PyStr "driving")].

Lemma no_route_run :
  handle_user_message Sample.demo "Drive me from A to B"
    (Sample.world [Return route_text])
  = (Return (PyStr ("Tool '" +:+ "osrm_route_driving" +:+
                    "' failed with an exception: " +:+ exn_text no_routes)),
     after (Sample.world [Return route_text]) (mkState [] 1)
       [EvChat (decision_messages Sample.demo "Drive me from A to B") 512;
        EvCall (fun_name MapServers.osrm_route_driving_impl) route_args;
        EvBody (fun_name MapServers.osrm_route_driving_impl) route_args]).
Proof.
  exact (tool_failure_is_reported (R := Sample.demo) "Drive me from A to B"
           (Sample.world [Return route_text]) route_text (mkState [] 0)
           driving_decision "osrm_route_driving" route_args
           MapServers.osrm_route_driving_impl route_args no_routes
           (mkState [] 1)
           eq_refl eq_refl eq_refl eq_refl eq_refl eq_refl eq_refl
           eq_refl eq_refl).
Defined.

Lemma stumbling_tool_run :
  handle_user_message (Sample.runtime stumbling) "Drive me from A to B"
    (world_at (Sample.runtime stumbling) (mkState [Return route_text] 0))
  = (Return (PyStr ("There was an error calling tool '" +:+
                    "osrm_route_driving" +:+ "' with arguments " +:+
                    repr (Sample.runtime stumbling) (PyDict route_args) +:+
                    ": " +:+ exn_text bad_operand)),
     after (world_at (Sample.runtime stumbling) (mkState [Return route_text] 0))
       (mkState [] 1)
       [EvChat (decision_messages (Sample.runtime stumbling)
                  "Drive me from A to B") 512;
        EvCall (fun_name MapServers.osrm_route_driving_impl) route_args;
        EvBody (fun_name MapServers.osrm_route_driving_impl) route_args]).
Proof.
  exact (type_error_of_tool_reads_as_bad_call (R := Sample.runtime stumbling)
           "Drive me from A to B"
           (world_at (Sample.runtime stumbling) (mkState [Return route_text] 0))
           route_text (mkState [] 0)
           driving_decision "osrm_route_driving" route_args
           MapServers.osrm_route_driving_impl route_args bad_operand
           (mkState [] 1)
           eq_refl eq_refl eq_refl eq_refl eq_refl eq_refl eq_refl eq_refl).
Defined.

Lemma interrupted_tool_run :
  handle_user_message (Sample.runtime interrupted) "Drive me from A to B"
    (world_at (Sample.runtime interrupted) (mkState [Return route_text] 0))
  = (Raise interrupt,
     after (world_at (Sample.runtime interrupted)
              (mkState [Return route_text] 0))
       (mkState [] 1)
       [EvChat (decision_messages (Sample.runtime interrupted)
                  "Drive me from A to B") 512;
        EvCall (fun_name MapServers.osrm_route_driving_impl) route_args;
        EvBody (fun_name MapServers.osrm_route_driving_impl) route_args]).
Proof.
  exact (interrupt_of_tool_is_not_caught (R := Sample.runtime interrupted)
           "Drive me from A to B"
           (world_at (Sample.runtime interrupted) (mkState [Return route_text] 0))
           route_text (mkState [] 0)
           driving_decision "osrm_route_driving" route_args
           MapServers.osrm_route_driving_impl route_args interrupt
           (mkState [] 1)
           eq_refl eq_refl eq_refl eq_refl eq_refl eq_refl eq_refl
           (or_introl eq_refl)).
Defined.

Lemma no_args_run :
  handle_user_message more_demo "Drive me"
    (world_at more_demo (mkState [Return no_args_text] 0))
  = (Return (PyStr ("There was an error calling tool '" +:+
                    "osrm_route_driving" +:+ "' with arguments " +:+
                    repr more_demo (PyDict []) +:+ ": " +:+
                    fault_text more_demo
                      (MissingRequired
                         (fun_name MapServers.osrm_route_driving_impl)
                         (Call.missing MapServers.osrm_route_driving_impl
                            [])))),
     after (world_at more_demo (mkState [Return no_args_text] 0))
       (mkState [] 0)
       [EvChat (decision_messages more_demo "Drive me") 512;
        EvCall (fun_name MapServers.osrm_route_driving_impl) []]).
Proof.
  refine (absent_args_call_with_nothing (R := more_demo) "Drive me"
            (world_at more_demo (mkState [Return no_args_text] 0))
            no_args_text (mkState [] 0)
            [("tool", PyStr "osrm_route_driving")] "osrm_route_driving"
            MapServers.osrm_route_driving_impl
            eq_refl eq_refl eq_refl eq_refl eq_refl _).
  exists (required "start_lat"). split; [simpl; tauto|reflexivity].
Defined.

Lemma list_args_run :
  handle_user_message more_demo "Drive me"
    (world_at more_demo (mkState [Return list_args_text] 0))
  = (Return (PyStr ("There was an error calling tool '" +:+
                    "osrm_route_driving" +:+ "' with arguments " +:+
                    str more_demo
                      (PyList [PyInt 52; PyInt 13; PyInt 53; PyInt 14]) +:+
                    ": " +:+
                    fault_text more_demo
                      (NotAMapping
                         (fun_name MapServers.osrm_route_driving_impl)
                         (PyList [PyInt 52; PyInt 13; PyInt 53; PyInt 14])))),
     after (world_at more_demo (mkState [Return list_args_text] 0))
       (mkState [] 0)
       [EvChat (decision_messages more_demo "Drive me") 512]).
Proof.
  exact (args_that_are_no_mapping (R := more_demo) "Drive me"
           (world_at more_demo (mkState [Return list_args_text] 0))
           list_args_text (mkState [] 0)
           [("tool", PyStr "osrm_route_driving");
            ("args", PyList [PyInt 52; PyInt 13; PyInt 53; PyInt 14])]
           "osrm_route_driving" MapServers.osrm_route_driving_impl
           (PyList [PyInt 52; PyInt 13; PyInt 53; PyInt 14])
           eq_refl eq_refl eq_refl eq_refl eq_refl eq_refl eq_refl).
Defined.

Lemma number_answer_run :
  handle_user_message more_demo "What is the answer?"
    (world_at more_demo (mkState [Return number_answer_text] 0))
  = (Return (PyInt 42),
     after (world_at more_demo (mkState [Return number_answer_text] 0))
       (mkState [] 0)
       [EvChat (decision_messages more_demo "What is the answer?") 512]).
Proof.
  exact (answer_of_any_type_is_returned (R := more_demo)
           "What is the answer?"
           (world_at more_demo (mkState [Return number_answer_text] 0))
           number_answer_text (mkState [] 0) [("answer", PyInt 42)]
           (PyInt 42) eq_refl eq_refl eq_refl eq_refl).
Defined.

Lemma deep_array_is_too_deep :
  json_loads more_demo (strip deep_text) = Raise too_deep.
Proof. vm_compute. reflexivity. Qed.

Lemma deep_array_run :
  handle_user_message more_demo "Hello"
    (world_at more_demo (mkState [Return deep_text] 0))
  = (Raise too_deep,
     after (world_at more_demo (mkState [Return deep_text] 0))
       (mkState [] 0)
       [EvChat (decision_messages more_demo "Hello") 512]).
Proof.
  exact (other_parser_errors_are_raised (R := more_demo) "Hello"
           (world_at more_demo (mkState [Return deep_text] 0))
           deep_text (mkState [] 0) too_deep
           eq_refl ltac:(vm_compute; reflexivity) eq_refl).
Defined.

Lemma swapped_keywords_bind_alike :
  Call.bind_kwargs MapServers.osrm_nearest_road_impl
    [("lon", PyInt 2); ("lat", PyInt 48)]
  = inr nearest_bound_args.
Proof.
  apply (binding_ignores_keyword_order MapServers.osrm_nearest_road_impl
           nearest_args [("lon", PyInt 2); ("lat", PyInt 48)]
           nearest_bound_args).
  - apply perm_swap.
  - repeat constructor; simpl; intuition discriminate.
  - reflexivity.
Defined.

Lemma nearest_keywords_are_passed_on :
  List.map fst nearest_bound_args
  = List.map param_name (fun_params MapServers.osrm_nearest_road_impl)
  /\ (forall k v, Py.lookup k nearest_args = Some v ->
                  In (k, v) nearest_bound_args)
  /\ (forall k v, In (k, v) nearest_bound_args ->
        Py.lookup k nearest_args = Some v
        \/ (Py.lookup k nearest_args = None
            /\ exists p, In p (fun_params MapServers.osrm_nearest_road_impl)
                         /\ param_name p = k /\ param_default p = Some v)).
Proof.
  exact (binding_passes_keywords_on MapServers.osrm_nearest_road_impl
           nearest_args nearest_bound_args eq_refl).
Defined.

Lemma schema_describes_nearest_road :
  exists spec,
    schema_get "osrm_nearest_road" _tool_schema = Some spec
    /\ Forall2 describes (args spec)
         (fun_params MapServers.osrm_nearest_road_impl).
Proof.
  apply (schema_describes_osrm_signatures "osrm_nearest_road"
           MapServers.osrm_nearest_road_impl).
  - simpl. tauto.
  - reflexivity.
Defined.

Definition nearest_spec : tool_spec :=
  mkToolSpec "Snap a coordinate to the nearest road using OSRM."
    [("lat", "float (required)"); ("lon", "float (required)");
     ("profile", "string (optional, default='driving') - OSRM profile (driving, bike, foot).")].

Lemma prompt_presents_nearest_road :
  contains "osrm_nearest_road" (build_system_prompt Sample.demo) = true
  /\ contains (description nearest_spec) (build_system_prompt Sample.demo)
     = true
  /\ contains (json_dumps_indent2 Sample.demo (args_dict (args nearest_spec)))
       (build_system_prompt Sample.demo) = true.
Proof.
  apply (system_prompt_presents_every_tool Sample.demo "osrm_nearest_road"
           nearest_spec).
  do 5 right. left. reflexivity.
Defined.

Lemma two_blank_lines_run :
  repl Sample.demo [Line ""; Line "   "] (Sample.world [])
  = (Return tt,
     mkWorld (env (Sample.world [])) (log (Sample.world []))
       (stdout (Sample.world [])
        ++ repeat "You: " (S (length [Line ""; Line "   "]))
        ++ [nl +:+ "Exiting." +:+ nl])%list).
Proof.
  apply (blank_lines_ask_nothing (R := Sample.demo)
           [Line ""; Line "   "] (Sample.world [])).
  repeat constructor; eexists; (split; reflexivity).
Defined.

End Runs2.

(** ** Runs of the OSRM functions *)

Module OsrmRuns.

Import PyString Sample Sample2.

Definition lat1 : pyval := PyInt 52.
Definition lon1 : pyval := PyInt 13.
Definition lat2 : pyval := PyInt 53.
Definition lon2 : pyval := PyInt 14.

Definition driving_req : Osrm.request :=
  route_request Sample.demo "driving" lat1 lon1 lat2 lon2.

Definition nearest_req : Osrm.request :=
  nearest_request Sample.demo (PyInt 48) (PyInt 2) (PyStr "driving").

(** The address of a request: longitude, then latitude. *)
Lemma driving_url :
  Osrm.url driving_req
  = "https://router.project-osrm.org/route/v1/driving/13,52;14,53"
  /\ Osrm.url nearest_req
     = "https://router.project-osrm.org/nearest/v1/driving/2,48".
Proof. split; vm_compute; reflexivity. Qed.

Lemma no_route_call :
  Osrm.osrm_route_driving_impl Sample.demo no_route_service sample_server_text
    lat1 lon1 lat2 lon2 (net_of [])
  = (Raise (mkExn RuntimeError
              ("OSRM returned no routes: " +:+
               repr Sample.demo (PyDict no_route_answer))),
     received Sample.demo (net_of []) driving_req (mkState [] 1)).
Proof.
  exact (no_routes_is_an_error Sample.demo no_route_service sample_server_text
           lat1 lon1 lat2 lon2 (net_of []) no_route_answer (mkState [] 1)
           eq_refl eq_refl).
Defined.

Lemma route_call :
  Osrm.osrm_route_driving_impl Sample.demo service sample_server_text
    lat1 lon1 lat2 lon2 (net_of [])
  = (Return (PyDict
               [("distance_km", PyFloat (dyadic 25 (-1)));
                ("duration_min", PyFloat (dyadic 15 0));
                ("summary",
                 default (PyStr "") (Py.lookup "summary" the_route));
                ("geometry",
                 default PyNone (Py.lookup "geometry" the_route))]),
     received Sample.demo (net_of []) driving_req (mkState [] 1)).
Proof.
  exact (route_result_is_the_first_route Sample.demo service sample_server_text
           lat1 lon1 lat2 lon2 (net_of []) route_answer (mkState [] 1)
           the_route [] (PyInt 12500) (PyFloat (dyadic 900 0))
           (PyFloat (dyadic 25 (-1))) (PyFloat (dyadic 15 0))
           eq_refl eq_refl eq_refl eq_refl eq_refl eq_refl).
Defined.

(** The same call, evaluated: 12500 m in 900 s are 12.5 km in 15 min,
    the route has no summary, and its legs are left out. *)
Lemma route_call_result :
  fst (Osrm.osrm_route_driving_impl Sample.demo service sample_server_text
         lat1 lon1 lat2 lon2 (net_of []))
  = Return (PyDict
              [("distance_km", PyFloat (S754_finite false 7036874417766400 (-49)));
               ("duration_min", PyFloat (S754_finite false 8444249301319680 (-49)));
               ("summary", PyStr "");
               ("geometry", PyDict [("type", PyStr "LineString")])]).
Proof. vm_compute. reflexivity. Qed.

Lemma cycling_call_as_driving :
  fst (Osrm.osrm_route_cycling_impl Sample.demo service sample_server_text
         lat1 lon1 lat2 lon2 (net_of []))
  = fst (Osrm.osrm_route_driving_impl Sample.demo service sample_server_text
           lat1 lon1 lat2 lon2 (net_of [])).
Proof.
  apply (cycling_computes_as_driving Sample.demo service sample_server_text
           lat1 lon1 lat2 lon2 (net_of []) (PyDict route_answer)
           (mkState [] 1) (mkState [] 1)).
  - reflexivity.
  - reflexivity.
  - intros o [= <-]. reflexivity.
Defined.

Lemma nearest_call :
  Osrm.osrm_nearest_road_impl Sample.demo service sample_server_text sample_float_of_str
    (PyInt 48) (PyInt 2) (PyStr "driving") (net_of [])
  = (Return (PyDict [("snapped_lat", PyFloat (dyadic 195 (-2)));
                     ("snapped_lon", PyFloat (dyadic 9 (-2)));
                     ("distance_m", PyFloat (dyadic 12 0))]),
     received Sample.demo (net_of []) nearest_req (mkState [] 1)).
Proof.
  refine (nearest_reads_lon_then_lat Sample.demo service sample_server_text
            sample_float_of_str (PyInt 48) (PyInt 2) (PyStr "driving")
            (net_of []) nearest_answer (mkState [] 1) the_waypoint []
            (PyFloat (dyadic 9 (-2))) (PyFloat (dyadic 195 (-2)))
            (PyFloat (dyadic 195 (-2))) (PyFloat (dyadic 9 (-2)))
            (PyFloat (dyadic 12 0))
            eq_refl eq_refl eq_refl eq_refl eq_refl _).
  right. split; [discriminate|reflexivity].
Defined.

Definition start (http : Osrm.request -> state -> outcome pyval * state)
    (replies : list (outcome string)) : World (linked_demo http) :=
  @mkWorld (linked_demo http) (net_of replies) [] [].

Lemma no_route_turn :
  handle_user_message (linked_demo no_route_service) "Drive me from A to B"
    (start no_route_service [Return route_text])
  = (Return (PyStr ("Tool 'osrm_route_driving' failed with an exception: "
                    +:+ "OSRM returned no routes: "
                    +:+ repr Sample.demo (PyDict no_route_answer))),
     after (start no_route_service [Return route_text])
       (received Sample.demo (net_of [])
          (driving_request Sample.demo route_args) (mkState [] 1))
       [EvChat (decision_messages (linked_demo no_route_service)
                  "Drive me from A to B") 512;
        EvCall "osrm_route_driving_impl" route_args;
        EvBody "osrm_route_driving_impl" route_args]).
Proof.
  exact (no_route_is_told_to_the_user Sample.demo no_route_service
           sample_server_text sample_float_of_str "Drive me from A to B"
           (start no_route_service [Return route_text])
           route_text (net_of [])
           [("tool", PyStr "osrm_route_driving"); ("args", PyDict route_args)]
           route_args route_args no_route_answer (mkState [] 1)
           eq_refl eq_refl eq_refl eq_refl eq_refl eq_refl eq_refl).
Defined.

(** The text the user reads. *)
Lemma no_route_turn_text :
  fst (handle_user_message (linked_demo no_route_service)
         "Drive me from A to B"
         (start no_route_service [Return route_text]))
  = Return (PyStr ("Tool 'osrm_route_driving' failed with an exception: "
                   +:+ "OSRM returned no routes: "
                   +:+ "{'code': 'NoRoute', 'routes': []}")).
Proof. vm_compute. reflexivity. Qed.

Lemma nearest_turn_request :
  Osrm.sent
    (env (snd (handle_user_message (linked_demo service) "Which road is this?"
                 (start service [Return nearest_text;
                                 Return "Rue de Rivoli."]))))
  = (Osrm.sent (env (start service [Return nearest_text;
                                    Return "Rue de Rivoli."]))
     ++ [nearest_request Sample.demo (PyInt 48) (PyInt 2) (PyStr "driving")]
    )%list.
Proof.
  exact (nearest_road_defaults_to_driving Sample.demo service sample_server_text
           sample_float_of_str "Which road is this?"
           (start service [Return nearest_text; Return "Rue de Rivoli."])
           nearest_text (net_of [Return "Rue de Rivoli."])
           [("tool", PyStr "osrm_nearest_road"); ("args", PyDict nearest_args)]
           nearest_args
           [("lat", PyInt 48); ("lon", PyInt 2); ("profile", PyStr "driving")]
           (PyInt 48) (PyInt 2)
           eq_refl eq_refl eq_refl eq_refl eq_refl eq_refl eq_refl eq_refl).
Defined.

End OsrmRuns.
